(** * poloniexlendingbot: the control loop of [bin/lendingbot.py] and the
      exchange factory of [ExchangeApiFactory.py]

    The development embeds the [try]/[while True] part of [main]
    (lendingbot.py, lines 73-141) and [ExchangeApiFactory.createApi];
    [Module Main] adds the start of [main] (lines 29-71) and puts the
    three together.

    Modelling decisions, all taken from the source:
    - an exception object is its class linearisation ([__mro__]), its
      [str()] and what [needle in ex] does for its class; Python 3 raises
      [TypeError] for [in] on an object whose class has neither
      [__contains__] nor [__iter__] nor [__getitem__], which is the case of
      every built-in exception class;
    - every call into a collaborator (Data, Lending, PluginsManager, the
      logger, [sys.stdout.flush], [time.sleep], WebServer) is an event of
      the run and returns or raises as the environment of the cycle decides;
      [print] and the getters ([Lending.get_sleep_time], [Config.has_option],
      [Config.getboolean], [Data.get_bot_version], [traceback.format_exc])
      always return;
    - numbers are rationals (every int and every finite float is one);
      Python's [+], [-] and [*] are parameters of the model, exact on ints
      and rounding to binary64 when a float takes part, so that
      [130.0 - t], [x * 1.5] and [x + 3] are what the interpreter computes;
      comparisons and [max] are exact, as in Python;
    - the loop is run with fuel, one unit per cycle. *)

From Stdlib Require Import QArith Qminmax Lqa.
From stdpp Require Import gmap strings list.

(** ** Python exceptions *)

Inductive pyclass :=
| BaseException
| Exception
| KeyboardInterrupt
| BadStatusLine
| URLError
| ApiError
| TypeError
| OtherClass (name : string).

#[global] Instance pyclass_eq_dec : EqDecision pyclass.
Proof. solve_decision. Defined.

Definition class_name (c : pyclass) : string :=
  match c with
  | BaseException => "BaseException"
  | Exception => "Exception"
  | KeyboardInterrupt => "KeyboardInterrupt"
  | BadStatusLine => "BadStatusLine"
  | URLError => "URLError"
  | ApiError => "ApiError"
  | TypeError => "TypeError"
  | OtherClass name => name
  end.

(** [exc_mro] is [type(ex).__mro__] with the class itself first;
    [exc_contains] is [Some f] when the class implements the container
    protocol, [f needle] being the value of [needle in ex], and [None]
    when it does not. *)
Record exn := mk_exn {
  exc_mro : list pyclass;
  exc_str : string;
  exc_contains : option (string -> bool)
}.

Definition isinstance (ex : exn) (c : pyclass) : bool :=
  bool_decide (c ∈ exc_mro ex).

Definition exc_type_name (ex : exn) : string :=
  match exc_mro ex with
  | c :: _ => class_name c
  | [] => "object"
  end.

(** [Exception(msg)], [KeyboardInterrupt()], [ApiError(msg)] and the
    [TypeError] the interpreter raises for an unsupported [in]. *)
Definition new_Exception (msg : string) : exn :=
  mk_exn [Exception; BaseException] msg None.

Definition new_KeyboardInterrupt : exn :=
  mk_exn [KeyboardInterrupt; BaseException] "" None.

Definition new_ApiError (msg : string) : exn :=
  mk_exn [ApiError; Exception; BaseException] msg None.

Definition not_iterable (ex : exn) : exn :=
  mk_exn [TypeError; Exception; BaseException]
         ("argument of type '" +:+ exc_type_name ex +:+ "' is not iterable")
         None.

(** Substring test on strings, Python's [needle in text] for [str]. *)
Definition str_in (needle text : string) : bool :=
  match String.index 0 needle text with
  | Some _ => true
  | None => false
  end.

(** ** Numbers *)

Definition Qlt_bool (a b : Q) : bool := negb (Qle_bool b a).

(** Python's [max(a, b)]: the first of the largest arguments. *)
Definition py_max (a b : Q) : Q := if Qlt_bool a b then b else a.

(** ** Call sites, events and the environment *)

(** The collaborator calls of lines 76-141, named by line. *)
Inductive site :=
| L76_update_conversion_rates
| L77_before_lending
| L78_transfer_balances
| L79_cancel_all
| L80_lend_all
| L81_after_lending
| L82_get_total_lent
| L82_stringify_total_lent
| L83_get_max_duration
| L82_refreshStatus
| L84_persistStatus
| L85_flush
| L86_sleep
| L97_log_error
| L98_persistStatus
| L117_log_error
| L124_log_error
| L125_sleep
| L131_notify
| L132_flush
| L133_sleep
| L138_stop_web_server
| L139_on_bot_exit
| L140_log.

#[global] Instance site_eq_dec : EqDecision site.
Proof. solve_decision. Defined.

(** What a run leaves behind: collaborator calls with the arguments the
    loop computes for them, and printed lines. *)
Inductive event :=
| called (s : site)
| time_sleep (s : site) (secs : Q)
| log_error (s : site) (text : string)
| log_notify (s : site) (text : string)
| log_log (s : site) (text : string)
| print (text : string).

Definition event_site (ev : event) : option site :=
  match ev with
  | called s | time_sleep s _ | log_error s _ | log_notify s _ | log_log s _ => Some s
  | print _ => None
  end.

(** The collaborators during one cycle: which calls raise, and the value
    [Lending.get_sleep_time()] returns once the cycle body has run. *)
Record cycle_env := mk_cycle_env {
  raises : site -> option exn;
  interval : Q
}.

(** The configuration values lines 73-141 read, the formatting functions
    and the arithmetic of the interpreter, and the bot version:
    [num_add x y], [num_sub x y] and [num_mul x y] are Python's [x + y],
    [x - y] and [x * y] on the numbers of the program. *)
Record config := mk_config {
  web_server_enabled : bool;
  has_analyseCurrencies : bool;
  ma_debug_log : bool;
  notify_caught_exception : bool;
  bot_version : string;
  str_num : Q -> string;
  format_exc : exn -> string;
  num_add : Q -> Q -> Q;
  num_sub : Q -> Q -> Q;
  num_mul : Q -> Q -> Q
}.

(** The adapter object [api], as far as the loop touches it. *)
Record api_state := mk_api {
  req_period : Q;
  default_req_period : Q
}.

(** ** A monad for the loop: adapter state, exceptions, events *)

Inductive res (A : Type) :=
| Ret (a : A)
| Raise (e : exn).
Arguments Ret {A} a.
Arguments Raise {A} e.

(** A computation starts from the adapter's state and yields a result or
    an exception, the adapter's new state and the events it produced. *)
Definition M (A : Type) : Type := api_state -> res A * api_state * list event.

Definition result {R : Type} (o : R * api_state * list event) : R := o.1.1.
Definition final {R : Type} (o : R * api_state * list event) : api_state := o.1.2.
Definition events {R : Type} (o : R * api_state * list event) : list event := o.2.

(** [after l o]: the events [l] happened before those of [o]. *)
Definition after {R : Type} (l : list event) (o : R * api_state * list event)
  : R * api_state * list event :=
  match o with
  | (r, a, l') => (r, a, l ++ l')
  end.

Definition ret {A : Type} (x : A) : M A := fun a => (Ret x, a, []).

Definition raise {A : Type} (e : exn) : M A := fun a => (Raise e, a, []).

Definition bind {A B : Type} (m : M A) (k : A -> M B) : M B := fun a =>
  match m a with
  | (Ret x, a', l) => after l (k x a')
  | (Raise e, a', l) => (Raise e, a', l)
  end.

Declare Scope py_scope.
Delimit Scope py_scope with py.
Bind Scope py_scope with M.
Notation "'do' x <- m ; k" := (bind m (fun x => k))
  (at level 10, x name, m at level 100, k at level 200) : py_scope.
Notation "m >> k" := (bind m (fun _ => k))
  (at level 90, right associativity) : py_scope.
Open Scope py_scope.

(** [try: body except BaseException as ex: handler ex]; the clauses of the
    source are the tests [handler] makes on [ex]. *)
Definition try_except {A : Type} (body : M A) (handler : exn -> M A) : M A :=
  fun a =>
    match body a with
    | (Ret x, a', l) => (Ret x, a', l)
    | (Raise e, a', l) => after l (handler e a')
    end.

Definition emit (ev : event) : M unit := fun a => (Ret tt, a, [ev]).

Definition get_api : M api_state := fun a => (Ret a, a, []).

Definition set_req_period (p : Q) : M unit := fun a =>
  (Ret tt, mk_api p (default_req_period a), []).

Definition nl : string := String (Ascii.ascii_of_nat 10) "".

(** ** One cycle of the loop (lines 75-133) *)

Section Cycle.

Variable cfg : config.
Variable ce : cycle_env.

(** A collaborator call: it is made, then returns or raises. *)
Definition collab (s : site) (ev : event) : M unit := fun a =>
  (match raises ce s with
   | None => Ret tt
   | Some e => Raise e
   end, a, [ev]).

Definition call (s : site) : M unit := collab s (called s).

Definition sleep (s : site) (secs : Q) : M unit := collab s (time_sleep s secs).

Definition get_sleep_time : Q := interval ce.

(** [needle in ex] *)
Definition py_in (needle : string) (ex : exn) : M bool :=
  match exc_contains ex with
  | Some f => ret (f needle)
  | None => raise (not_iterable ex)
  end.

(** Lines 76-86. *)
Definition body : M unit :=
  call L76_update_conversion_rates >>
  call L77_before_lending >>
  call L78_transfer_balances >>
  call L79_cancel_all >>
  call L80_lend_all >>
  call L81_after_lending >>
  call L82_get_total_lent >>
  call L82_stringify_total_lent >>
  call L83_get_max_duration >>
  call L82_refreshStatus >>
  call L84_persistStatus >>
  call L85_flush >>
  sleep L86_sleep get_sleep_time.

(** Lines 115-125. *)
Definition on_error_429 : M unit :=
  let additional_sleep := py_max (num_sub cfg 130 get_sleep_time) 0 in
  let sum_sleep := num_add cfg additional_sleep get_sleep_time in
  collab L117_log_error
    (log_error L117_log_error
       ("IP has been banned due to many requests. Sleeping for "
          +:+ str_num cfg sum_sleep +:+ " seconds")) >>
  (if has_analyseCurrencies cfg then
     do a <- get_api ;
     (if Qle_bool (req_period a) (num_mul cfg (default_req_period a) 1.5)
      then set_req_period (num_add cfg (req_period a) 3)
      else ret tt) >>
     (if ma_debug_log cfg then
        do a' <- get_api ;
        emit (print ("Caught ERR_RATE_LIMIT, sleeping capture and increasing request delay. Current "
                       +:+ str_num cfg (req_period a') +:+ "ms")) >>
        collab L124_log_error
          (log_error L124_log_error
             "Expect this 130s ban periodically when using MarketAnalysis, it will fix itself")
      else ret tt)
   else ret tt) >>
  sleep L125_sleep additional_sleep.

(** Lines 128-131. *)
Definition on_unhandled (ex : exn) : M unit :=
  emit (print (format_exc cfg ex)) >>
  emit (print ("v" +:+ bot_version cfg
                 +:+ " Unhandled error, please open a Github issue so we can fix it!")) >>
  (if notify_caught_exception cfg then
     collab L131_notify
       (log_notify L131_notify
          (exc_str ex +:+ nl +:+ "-------" +:+ nl +:+ format_exc cfg ex))
   else ret tt).

(** Lines 99-131: the [if]/[elif] chain. *)
Definition classify (ex : exn) : M unit :=
  do b1 <- py_in "Invalid API key" ex ;
  if b1 then
    emit (print "!!! Troubleshooting !!!") >>
    emit (print "Are your API keys correct? No quotation. Just plain keys.") >>
    raise ex
  else
  do b2 <- py_in "Nonce must be greater" ex ;
  if b2 then
    emit (print "!!! Troubleshooting !!!") >>
    emit (print "Are you reusing the API key in multiple applications? Use a unique key for every application.") >>
    raise ex
  else
  do b3 <- py_in "Permission denied" ex ;
  if b3 then
    emit (print "!!! Troubleshooting !!!") >>
    emit (print "Are you using IP filter on the key? Maybe your IP changed?") >>
    raise ex
  else
  do b4 <- py_in "timed out" ex ;
  if b4 then
    emit (print ("Timed out, will retry in " +:+ str_num cfg get_sleep_time +:+ "sec"))
  else
  do b5 <- py_in "Error 429" ex ;
  if b5 then on_error_429
  else on_unhandled ex.

(** Lines 96-133: the clause [except Exception as ex]. *)
Definition generic_handler (ex : exn) : M unit :=
  collab L97_log_error (log_error L97_log_error (exc_str ex)) >>
  call L98_persistStatus >>
  classify ex >>
  call L132_flush >>
  sleep L133_sleep get_sleep_time.

(** Lines 87-133: the [except] clauses, tried in the order of the source;
    an exception no clause matches propagates. *)
Definition handlers (ex : exn) : M unit :=
  if isinstance ex KeyboardInterrupt then raise ex
  else if isinstance ex BadStatusLine then
    emit (print "Caught BadStatusLine exception from Poloniex, ignoring.")
  else if isinstance ex URLError then
    emit (print ("Caught " +:+ exc_str ex +:+ " from exchange, ignoring."))
  else if isinstance ex ApiError then
    emit (print ("Caught " +:+ exc_str ex +:+ " reading from exchange API, ignoring."))
  else if isinstance ex Exception then generic_handler ex
  else raise ex.

Definition cycle : M unit := try_except body handlers.

(** Lines 137-141. *)
Definition on_keyboard_interrupt : M unit :=
  (if web_server_enabled cfg then call L138_stop_web_server else ret tt) >>
  call L139_on_bot_exit >>
  collab L140_log (log_log L140_log "bye") >>
  emit (print "bye").

End Cycle.

(** ** The loop and [main] (lines 73-141) *)

Inductive loop_result :=
| Unfinished
| Raised (n : nat) (e : exn).

(** How [main] ends: it returns (the process exits with code 0), an
    exception leaves it (non-zero exit code), or the fuel ran out with
    the loop still going. *)
Inductive outcome :=
| Returned
| Propagated (e : exn)
| Running.

Section Run.

Variable cfg : config.
Variable env : nat -> cycle_env.

(** [while True: <cycle>], from cycle [n] on. *)
Fixpoint loop (fuel n : nat) (a : api_state) : loop_result * api_state * list event :=
  match fuel with
  | O => (Unfinished, a, [])
  | S fuel' =>
      match cycle cfg (env n) a with
      | (Ret _, a', l) =>
          after l (loop fuel' (S n) a')
      | (Raise e, a', l) => (Raised n e, a', l)
      end
  end.

(** Lines 73-141: the loop inside [try: ... except KeyboardInterrupt:]. *)
Definition main (fuel : nat) (a : api_state) : outcome * api_state * list event :=
  match loop fuel 0 a with
  | (Unfinished, a', l) => (Running, a', l)
  | (Raised n e, a', l) =>
      if isinstance e KeyboardInterrupt then
        after l
          match on_keyboard_interrupt cfg (env n) a' with
          | (Ret _, a'', l') => (Returned, a'', l')
          | (Raise e', a'', l') => (Propagated e', a'', l')
          end
      else (Propagated e, a', l)
  end.

End Run.

(** ** ExchangeApiFactory.py *)

Module ExchangeApiFactory.

(** The two adapter classes the module imports. *)
Inductive api_class :=
| Poloniex
| Bitfinex.

(** [EXCHANGE = {'POLONIEX': Poloniex, 'BITFINEX': Bitfinex}] *)
Definition EXCHANGE : gmap string api_class :=
  <["POLONIEX" := Poloniex]> (<["BITFINEX" := Bitfinex]> ∅).

Section Factory.

(** The instances, and what calling the class [c] on [(cfg, log)]
    does: the classes are defined outside this module. *)
Variable instance : Type.
Variable new : api_class -> res instance.

(** What a call of [createApi] leaves behind: the classes it called,
    in order, and its result. *)
Definition construction (A : Type) : Type := list api_class * res A.

Definition construct (c : api_class) : construction instance := ([c], new c).

Definition key_error (k : string) : exn :=
  mk_exn [OtherClass "KeyError"; OtherClass "LookupError"; Exception; BaseException]
         k None.

Definition createApi (exchange : string) : construction instance :=
  if bool_decide (exchange ∉ dom EXCHANGE) then
    ([], Raise (new_Exception ("Invalid exchange: " +:+ exchange)))
  else
    match EXCHANGE !! exchange with
    | Some c => construct c
    | None => ([], Raise (key_error exchange))
    end.

End Factory.

End ExchangeApiFactory.

(** ** The start of [main] (lines 29-71) and the whole function *)

(** The getters of [Config] ([get], [get_exchange], [has_option],
    [getboolean]) return the values of [settings] and [config]; the
    imports of lines 46 and 59 belong to the calls that follow them. *)

Module Main.

(** The calls of lines 29-68 that can raise, named by line: the
    collaborator calls and, on line 50, the conversion
    [Decimal(Config.get('BOT', 'jsonlogsize', 200))], which is evaluated
    before [Logger] is called and raises on a text that is no number. *)
Inductive startup_site :=
| L29_Config_init
| L47_initialize_web_server
| L50_Decimal
| L50_Logger
| L54_MaxToLend_init
| L55_Data_init
| L56_Config_init
| L57_get_notification_config
| L61_MarketAnalysis
| L62_analysis_run
| L65_Lending_init
| L68_PluginsManager_init.

#[global] Instance startup_site_eq_dec : EqDecision startup_site.
Proof. solve_decision. Defined.

(** The events of the start: calls, with the arguments the statements
    below speak of ([jsonfile] for the logger, the presence of the
    analysis object for [Lending.init]), the classes [createApi] calls,
    and the welcome line. The parsing of the command line by [click] is
    outside. *)
Inductive startup_event :=
| started (s : startup_site)
| new_Logger (jsonfile : string)
| constructed (c : ExchangeApiFactory.api_class)
| Lending_init (with_analysis : bool)
| welcome (text : string).


(** The values lines 31-70 read from [Config], beside those of [config]:
    [get_jsonfile d] is [Config.get('BOT', 'jsonfile', d)]. *)
Record settings := mk_settings {
  exchange : string;
  has_jsonfile : bool;
  has_jsonlogsize : bool;
  get_jsonfile : string → string;
  label : string
}.

(** The collaborators at the start: which calls raise, and what calling
    an adapter class does. *)
Record start_env := mk_start_env {
  starts : startup_site → option exn;
  new : ExchangeApiFactory.api_class → res api_state
}.

(** The local variables the loop uses. *)
Record locals := mk_locals {
  json_output_enabled : bool;
  jsonfile : string;
  api : api_state
}.

(** A computation of the start: its events and its result. *)
Definition W (A : Type) : Type := list startup_event * res A.

Definition wret {A : Type} (x : A) : W A := ([], Ret x).

Definition wbind {A B : Type} (m : W A) (k : A → W B) : W B :=
  match m with
  | (l, Ret x) => match k x with (l', r) => (l ++ l', r) end
  | (l, Raise e) => (l, Raise e)
  end.

Declare Scope startup_scope.
Delimit Scope startup_scope with startup.
Notation "'do' x <- m ; k" := (wbind m (fun x => k))
  (at level 10, x name, m at level 100, k at level 200) : startup_scope.
Notation "m >> k" := (wbind m (fun _ => k))
  (at level 90, right associativity) : startup_scope.

Section Start.

Variable cfg : config.
Variable b : settings.
Variable se : start_env.

Definition step (s : startup_site) (ev : startup_event) : W unit :=
  ([ev], match starts se s with
         | None => Ret tt
         | Some e => Raise e
         end).

Definition start (s : startup_site) : W unit := step s (started s).

(** [ExchangeApiFactory.createApi(exchange, Config, log)] *)
Definition createApi : W api_state :=
  match ExchangeApiFactory.createApi api_state (new se) (exchange b) with
  | (classes, r) => (constructed <$> classes, r)
  end.

(** Lines 35-36 and 40-44. *)
Definition json_output : bool * string :=
  let json_output_enabled := has_jsonfile b && has_jsonlogsize b in
  let jsonfile := get_jsonfile b "" in
  if web_server_enabled cfg then
    if negb json_output_enabled then (true, get_jsonfile b "www/botlog.json")
    else (json_output_enabled, jsonfile)
  else (json_output_enabled, jsonfile).

(** Lines 29-71. *)
Definition startup : W locals :=
  (start L29_Config_init >>
   (if web_server_enabled cfg then start L47_initialize_web_server
    else wret tt) >>
   start L50_Decimal >>
   step L50_Logger (new_Logger json_output.2) >>
   do a <- createApi ;
   start L54_MaxToLend_init >>
   start L55_Data_init >>
   start L56_Config_init >>
   start L57_get_notification_config >>
   do analysis <-
     (if has_analyseCurrencies cfg then
        start L61_MarketAnalysis >> start L62_analysis_run >> wret true
      else wret false) ;
   step L65_Lending_init (Lending_init analysis) >>
   start L68_PluginsManager_init >>
   ([welcome ("Welcome to " +:+ label b +:+ " on " +:+ exchange b)], Ret tt) >>
   wret (mk_locals json_output.1 json_output.2 a))%startup.

(** Lines 28-141: the start, then the loop on the adapter [createApi]
    returned. An exception of the start leaves [main]: the [try] of line
    73 is not entered yet. *)
Definition main (env : nat → cycle_env) (fuel : nat)
  : outcome * option api_state * list (startup_event + event) :=
  match startup with
  | (l, Raise e) => (Propagated e, None, inl <$> l)
  | (l, Ret loc) =>
      match main cfg env fuel (api loc) with
      | (o, a', l') => (o, Some a', (inl <$> l) ++ (inr <$> l'))
      end
  end.

End Start.

End Main.

(** ** Vocabulary of the statements *)

(** The calls of the [try] block, in the order of lines 76-86. *)
Definition body_sites : list site :=
  [L76_update_conversion_rates; L77_before_lending; L78_transfer_balances;
   L79_cancel_all; L80_lend_all; L81_after_lending; L82_get_total_lent;
   L82_stringify_total_lent; L83_get_max_duration; L82_refreshStatus;
   L84_persistStatus; L85_flush; L86_sleep].

(** The events of a [try] block that runs to its end. *)
Definition body_events (ce : cycle_env) : list event :=
  [called L76_update_conversion_rates; called L77_before_lending;
   called L78_transfer_balances; called L79_cancel_all; called L80_lend_all;
   called L81_after_lending; called L82_get_total_lent;
   called L82_stringify_total_lent; called L83_get_max_duration;
   called L82_refreshStatus; called L84_persistStatus; called L85_flush;
   time_sleep L86_sleep (interval ce)].

(** A chain of collaborator calls, as [c1 >> c2 >> ... >> cn]. *)
Fixpoint run_calls (ce : cycle_env) (l : list (site * event)) : M unit :=
  match l with
  | [] => ret tt
  | (s, ev) :: l' =>
      match l' with
      | [] => collab ce s ev
      | _ => collab ce s ev >> run_calls ce l'
      end
  end.

(** The collaborator calls at [sites] return. *)
Definition all_return (ce : cycle_env) (sites : list site) : Prop :=
  ∀ s, s ∈ sites → raises ce s = None.

(** The call at [s] is among the events [l]. *)
Definition calls (l : list event) (s : site) : bool :=
  bool_decide (Some s ∈ event_site <$> l).

Definition count_calls (s : site) (l : list event) : nat :=
  length (filter (λ ev, event_site ev = Some s) l).

(** The seconds slept, in order. *)
Definition slept (l : list event) : list Q :=
  omap (λ ev, match ev with time_sleep _ secs => Some secs | _ => None end) l.

(** [ex] is matched by [except Exception] and by no clause before it. *)
Definition reaches_generic_handler (ex : exn) : bool :=
  negb (isinstance ex KeyboardInterrupt) && negb (isinstance ex BadStatusLine)
  && negb (isinstance ex URLError) && negb (isinstance ex ApiError)
  && isinstance ex Exception.

(** The answers of [needle in ex] that lead the [if]/[elif] chain of
    lines 99-131 to each of its branches. *)
Definition no_fatal_needle (f : string → bool) : bool :=
  negb (f "Invalid API key") && negb (f "Nonce must be greater")
  && negb (f "Permission denied").

Definition selects_error_429 (f : string → bool) : bool :=
  no_fatal_needle f && negb (f "timed out") && f "Error 429".

(** The cycle makes none of the calls of lines 138-140. *)
Definition in_cycle (ev : event) : Prop :=
  event_site ev ∉ [Some L138_stop_web_server; Some L139_on_bot_exit; Some L140_log].

(** The events of lines 137-141. *)
Definition exit_events (cfg : config) : list event :=
  (if web_server_enabled cfg then [called L138_stop_web_server] else [])
    ++ [called L139_on_bot_exit; log_log L140_log "bye"; print "bye"].

(** The events of lines 111-113 and 127-131. *)
Definition report_events (cfg : config) (ce : cycle_env) (ex : exn)
    (timed_out : bool) : list event :=
  if timed_out then
    [print ("Timed out, will retry in " +:+ str_num cfg (interval ce) +:+ "sec")]
  else
    [print (format_exc cfg ex);
     print ("v" +:+ bot_version cfg
              +:+ " Unhandled error, please open a Github issue so we can fix it!")]
      ++ (if notify_caught_exception cfg then
            [log_notify L131_notify
               (exc_str ex +:+ nl +:+ "-------" +:+ nl +:+ format_exc cfg ex)]
          else []).


(** What a collaborator call raised is what the computation raises. *)
Definition propagates (ce : cycle_env) {A : Type} (m : M A) : Prop :=
  ∀ a s e, Some s ∈ event_site <$> events (m a) →
           raises ce s = Some e → result (m a) = Raise e.

(** Every event of the computation satisfies [P]. *)
Definition emits {A : Type} (P : event → Prop) (m : M A) : Prop :=
  ∀ a, Forall P (events (m a)).

(** An exception class whose [__contains__] looks the needle up in the
    message, environments given by the calls that raise, and a
    configuration, for the examples. *)
Definition text_exception (msg : string) : exn :=
  mk_exn [OtherClass "TextError"; Exception; BaseException] msg
         (Some (λ needle, str_in needle msg)).

Fixpoint lookup_site (s : site) (l : list (site * exn)) : option exn :=
  match l with
  | [] => None
  | (s', e) :: l' => if decide (s' = s) then Some e else lookup_site s l'
  end.

Definition raising (l : list (site * exn)) (t : Q) : cycle_env :=
  mk_cycle_env (λ s, lookup_site s l) t.

Definition quiet (t : Q) : cycle_env := raising [] t.

(** A [URLError], as [urllib] raises it. *)
Definition url_error : exn :=
  mk_exn [URLError; OtherClass "OSError"; Exception; BaseException]
         "<urlopen error [Errno 111] Connection refused>" None.

(** A run of two cycles: the second fails in [cancel_all] with a
    timed-out message and is interrupted in the sleep of line 133. *)
Definition interrupted_run (n : nat) : cycle_env :=
  match n with
  | 1%nat => raising [(L79_cancel_all, text_exception "Connection timed out");
                      (L133_sleep, new_KeyboardInterrupt)] 60
  | _ => quiet 60
  end.

(** The arithmetic of the examples is exact: their numbers are small
    integers, on which binary64 does not round. *)
Definition sample_config (analyse debug notify : bool) : config :=
  mk_config false analyse debug notify "1.0" (λ _, "<num>") (λ _, "<traceback>")
            Qplus Qminus Qmult.


Definition all_start (se : Main.start_env) (sites : list Main.startup_site) : Prop :=
  ∀ s, s ∈ sites → Main.starts se s = None.

Definition startup_events (cfg : config) (b : Main.settings)
    (c : ExchangeApiFactory.api_class) : list Main.startup_event :=
  [Main.started Main.L29_Config_init]
    ++ (if web_server_enabled cfg
        then [Main.started Main.L47_initialize_web_server] else [])
    ++ [Main.started Main.L50_Decimal;
        Main.new_Logger (Main.json_output cfg b).2; Main.constructed c;
        Main.started Main.L54_MaxToLend_init; Main.started Main.L55_Data_init;
        Main.started Main.L56_Config_init;
        Main.started Main.L57_get_notification_config]
    ++ (if has_analyseCurrencies cfg
        then [Main.started Main.L61_MarketAnalysis;
              Main.started Main.L62_analysis_run] else [])
    ++ [Main.Lending_init (has_analyseCurrencies cfg);
        Main.started Main.L68_PluginsManager_init;
        Main.welcome ("Welcome to " +:+ Main.label b +:+ " on " +:+ Main.exchange b)].


(** Inputs for the examples of the start. *)
Definition web_config (analyse : bool) : config :=
  mk_config true analyse false false "1.0" (λ _, "<num>") (λ _, "<traceback>")
            Qplus Qminus Qmult.

Definition sample_settings (exchange : string) : Main.settings :=
  Main.mk_settings exchange false false (λ d, d) "Lending Bot".

Fixpoint lookup_start (s : Main.startup_site)
    (l : list (Main.startup_site * exn)) : option exn :=
  match l with
  | [] => None
  | (s', e) :: l' => if decide (s' = s) then Some e else lookup_start s l'
  end.

Definition start_raising (l : list (Main.startup_site * exn)) : Main.start_env :=
  Main.mk_start_env (λ s, lookup_start s l) (λ _, Ret (mk_api 1000 1000)).

(** [SystemExit()], and a run whose second cycle fails in [lend_all]. *)
Definition system_exit : exn :=
  mk_exn [OtherClass "SystemExit"; BaseException] "" None.

Definition failing_run (ex : exn) (n : nat) : cycle_env :=
  match n with
  | 1%nat => raising [(L80_lend_all, ex)] 60
  | _ => quiet 60
  end.

(** * Theorems *)

(** ** Equations of the monad *)

Lemma after_nil {R : Type} (o : R * api_state * list event) : after [] o = o.
Proof. by destruct o as [[r a] l]. Qed.

Lemma final_after {R : Type} l (o : R * api_state * list event) :
  final (after l o) = final o.
Proof. by destruct o as [[r a] l']. Qed.

Lemma result_after {R : Type} l (o : R * api_state * list event) :
  result (after l o) = result o.
Proof. by destruct o as [[r a] l']. Qed.

Lemma events_after {R : Type} l (o : R * api_state * list event) :
  events (after l o) = l ++ events o.
Proof. by destruct o as [[r a] l']. Qed.

Lemma after_after {R : Type} (l1 l2 : list event) (o : R * api_state * list event) :
  after l1 (after l2 o) = after (l1 ++ l2) o.
Proof. destruct o as [[r a] l]. unfold after; simpl. by rewrite app_assoc. Qed.

Lemma bind_ret {A B : Type} (x : A) (k : A → M B) (a : api_state) :
  bind (ret x) k a = k x a.
Proof. unfold bind, ret. apply after_nil. Qed.

Lemma bind_collab_returns {B : Type} ce s ev (k : unit → M B) (a : api_state) :
  raises ce s = None → bind (collab ce s ev) k a = after [ev] (k tt a).
Proof. intros H. unfold bind, collab. by rewrite H. Qed.

Lemma bind_collab_raises {B : Type} ce s ev e (k : unit → M B) (a : api_state) :
  raises ce s = Some e → bind (collab ce s ev) k a = (Raise e, a, [ev]).
Proof. intros H. unfold bind, collab. by rewrite H. Qed.

Lemma collab_returns ce s ev (a : api_state) :
  raises ce s = None → collab ce s ev a = (Ret tt, a, [ev]).
Proof. intros H. unfold collab. by rewrite H. Qed.

Lemma all_return_cons ce s sites :
  all_return ce (s :: sites) ↔ raises ce s = None ∧ all_return ce sites.
Proof.
  unfold all_return. split.
  - intros H. split; [apply H; left | intros s' Hs'; apply H; by right].
  - intros [H1 H2] s' [->|Hs']%elem_of_cons; auto.
Qed.

Lemma all_return_quiet t sites : all_return (quiet t) sites.
Proof. by intros s _. Qed.

(** ** Chains of calls and the [try] block *)

Lemma run_calls_cons ce s ev l a :
  run_calls ce ((s, ev) :: l) a
  = match raises ce s with
    | None => after [ev] (run_calls ce l a)
    | Some e => (Raise e, a, [ev])
    end.
Proof.
  destruct l as [|p l]; simpl.
  - unfold collab, ret, after. by destruct (raises ce s).
  - unfold bind at 1, collab at 1. by destruct (raises ce s).
Qed.

Lemma run_calls_final ce l a : final (run_calls ce l a) = a.
Proof.
  induction l as [|[s ev] l IH]; [reflexivity|].
  rewrite run_calls_cons. destruct (raises ce s); [reflexivity|].
  by rewrite final_after.
Qed.

Lemma run_calls_prefix ce l a : events (run_calls ce l a) `prefix_of` l.*2.
Proof.
  induction l as [|[s ev] l IH]; [reflexivity|].
  rewrite run_calls_cons. destruct (raises ce s).
  - apply prefix_cons, prefix_nil.
  - rewrite events_after. apply prefix_cons, IH.
Qed.

Lemma run_calls_returns ce l a :
  all_return ce l.*1 → run_calls ce l a = (Ret tt, a, l.*2).
Proof.
  induction l as [|[s ev] l IH]; [reflexivity|].
  intros H. simpl in H. apply all_return_cons in H as [Hs Hl].
  rewrite run_calls_cons, Hs, (IH Hl). reflexivity.
Qed.

Lemma run_calls_returns_inv ce l a :
  result (run_calls ce l a) = Ret tt → all_return ce l.*1.
Proof.
  induction l as [|[s ev] l IH]; [by intros _ s Hs%elem_of_nil|].
  rewrite run_calls_cons.
  destruct (raises ce s) eqn:Hs; [intros H; discriminate H|].
  rewrite result_after. intros H.
  apply all_return_cons. split; [exact Hs | by apply IH].
Qed.

Lemma body_run_calls ce : body ce = run_calls ce (zip body_sites (body_events ce)).
Proof. reflexivity. Qed.

(** The block runs to its end exactly when each of its calls returns. *)
Lemma body_returns ce a :
  all_return ce body_sites → body ce a = (Ret tt, a, body_events ce).
Proof. intros H. rewrite body_run_calls. by rewrite run_calls_returns. Qed.

Lemma body_returns_inv ce a a' l :
  body ce a = (Ret tt, a', l) → all_return ce body_sites.
Proof.
  intros H. apply (run_calls_returns_inv ce (zip body_sites (body_events ce)) a).
  rewrite <- body_run_calls. by rewrite H.
Qed.

(** The events of the block are a prefix of [body_events] *)
Lemma body_prefix ce a : events (body ce a) `prefix_of` body_events ce.
Proof. rewrite body_run_calls. apply run_calls_prefix. Qed.

Lemma body_final ce a : final (body ce a) = a.
Proof. rewrite body_run_calls. apply run_calls_final. Qed.

(** ** Dispatch of the [except] clauses *)

Lemma cycle_body_returns cfg ce a a' l :
  body ce a = (Ret tt, a', l) → cycle cfg ce a = (Ret tt, a', l).
Proof. intros H. unfold cycle, try_except. by rewrite H. Qed.

Lemma cycle_body_raises cfg ce a a' l ex :
  body ce a = (Raise ex, a', l) →
  cycle cfg ce a = after l (handlers cfg ce ex a').
Proof. intros H. unfold cycle, try_except. by rewrite H. Qed.

Lemma handlers_generic cfg ce ex :
  reaches_generic_handler ex = true →
  handlers cfg ce ex = generic_handler cfg ce ex.
Proof.
  unfold reaches_generic_handler, handlers.
  destruct (isinstance ex KeyboardInterrupt), (isinstance ex BadStatusLine),
    (isinstance ex URLError), (isinstance ex ApiError), (isinstance ex Exception);
    simpl; intros H; done.
Qed.

(** ** The loop *)

Lemma loop_cycle_returns cfg env fuel n a a' l :
  cycle cfg (env n) a = (Ret tt, a', l) →
  loop cfg env (S fuel) n a = after l (loop cfg env fuel (S n) a').
Proof. intros H. simpl. by rewrite H. Qed.

Lemma loop_cycle_raises cfg env fuel n a a' l e :
  cycle cfg (env n) a = (Raise e, a', l) →
  loop cfg env (S fuel) n a = (Raised n e, a', l).
Proof. intros H. simpl. by rewrite H. Qed.

(** A loop still going after [k] cycles goes on from there. *)
Lemma loop_app cfg env k fuel n a a' l :
  loop cfg env k n a = (Unfinished, a', l) →
  loop cfg env (k + fuel) n a = after l (loop cfg env fuel (k + n) a').
Proof.
  revert n a l. induction k as [|k IH]; intros n a l H; simpl in *.
  - injection H as <- <-. by rewrite after_nil.
  - destruct (cycle cfg (env n) a) as [[[[]|e] a1] l1]; [|discriminate H].
    destruct (loop cfg env k (S n) a1) as [[r a2] l2] eqn:Hk.
    cbv [after result final events] in H; simpl in H. injection H as -> -> <-.
    rewrite (IH _ _ _ Hk). rewrite after_after.
    by replace (k + S n)%nat with (S (k + n))%nat by lia.
Qed.

(** ** Two properties of computations, with their rules *)

Section Rules.

Variable ce : cycle_env.

Lemma propagates_ret {A : Type} (x : A) : propagates ce (ret x).
Proof. intros a s e H. by apply elem_of_nil in H. Qed.

Lemma propagates_raise {A : Type} (e : exn) : propagates ce (@raise A e).
Proof. intros a s e' H. by apply elem_of_nil in H. Qed.

Lemma propagates_get_api : propagates ce get_api.
Proof. intros a s e H. by apply elem_of_nil in H. Qed.

Lemma propagates_set_req_period p : propagates ce (set_req_period p).
Proof. intros a s e H. by apply elem_of_nil in H. Qed.

Lemma propagates_print text : propagates ce (emit (print text)).
Proof.
  intros a s e H. simpl in H.
  apply list_elem_of_singleton in H. discriminate H.
Qed.

Lemma propagates_collab s ev :
  event_site ev = Some s → propagates ce (collab ce s ev).
Proof.
  intros Hs a s' e H He. unfold collab in *. simpl in H.
  apply list_elem_of_singleton in H. rewrite Hs in H. injection H as ->.
  unfold result; simpl. by rewrite He.
Qed.

Lemma propagates_bind {A B : Type} (m : M A) (k : A → M B) :
  propagates ce m → (∀ x, propagates ce (k x)) → propagates ce (bind m k).
Proof.
  intros Hm Hk a s e. unfold bind.
  specialize (Hm a s e).
  destruct (m a) as [[[x|e0] a1] l1].
  - rewrite events_after, result_after, fmap_app, elem_of_app.
    intros [H|H] He.
    + specialize (Hm H He). discriminate Hm.
    + by apply (Hk x a1 s e).
  - intros H He. specialize (Hm H He).
    unfold result in *; simpl in *. congruence.
Qed.

Lemma propagates_if {A : Type} (b : bool) (m1 m2 : M A) :
  propagates ce m1 → propagates ce m2 → propagates ce (if b then m1 else m2).
Proof. by destruct b. Qed.

Lemma emits_ret {A : Type} P (x : A) : emits P (ret x).
Proof. intros a. constructor. Qed.

Lemma emits_raise {A : Type} P (e : exn) : emits P (@raise A e).
Proof. intros a. constructor. Qed.

Lemma emits_get_api P : emits P get_api.
Proof. intros a. constructor. Qed.

Lemma emits_set_req_period P p : emits P (set_req_period p).
Proof. intros a. constructor. Qed.

Lemma emits_emit (P : event → Prop) ev : P ev → emits P (emit ev).
Proof. intros H a. by repeat constructor. Qed.

Lemma emits_collab (P : event → Prop) s ev : P ev → emits P (collab ce s ev).
Proof. intros H a. by repeat constructor. Qed.

Lemma emits_bind {A B : Type} P (m : M A) (k : A → M B) :
  emits P m → (∀ x, emits P (k x)) → emits P (bind m k).
Proof.
  intros Hm Hk a. unfold bind. specialize (Hm a).
  destruct (m a) as [[[x|e0] a1] l1]; [|exact Hm].
  rewrite events_after. apply Forall_app. split; [exact Hm | apply Hk].
Qed.

Lemma emits_if {A : Type} P (b : bool) (m1 m2 : M A) :
  emits P m1 → emits P m2 → emits P (if b then m1 else m2).
Proof. by destruct b. Qed.

Lemma emits_try_except {A : Type} P (m : M A) (h : exn → M A) :
  emits P m → (∀ e, emits P (h e)) → emits P (try_except m h).
Proof.
  intros Hm Hh a. unfold try_except. specialize (Hm a).
  destruct (m a) as [[[x|e0] a1] l1]; [exact Hm|].
  rewrite events_after. apply Forall_app. split; [exact Hm | apply Hh].
Qed.

End Rules.

Create HintDb propagates.
#[export] Hint Resolve propagates_ret propagates_raise propagates_get_api
  propagates_set_req_period propagates_print propagates_collab
  propagates_bind propagates_if : propagates.

Create HintDb emits.
#[export] Hint Resolve emits_ret emits_raise emits_get_api emits_set_req_period
  emits_emit emits_collab emits_bind emits_if emits_try_except : emits.

Ltac case_match_goal :=
  match goal with
  | |- context [match ?x with _ => _ end] => destruct x
  end.

Ltac propagates_rules :=
  repeat (intros; first
    [ apply propagates_bind | apply propagates_if
    | solve [eauto with propagates] | case_match_goal ]).

Ltac emits_rules :=
  repeat (intros; first
    [ apply emits_try_except | apply emits_bind | apply emits_if
    | solve [eauto with emits] | case_match_goal ]).

Lemma propagates_body ce : propagates ce (body ce).
Proof. unfold body, call, sleep. propagates_rules. Qed.

Lemma propagates_generic_handler cfg ce ex : propagates ce (generic_handler cfg ce ex).
Proof.
  unfold generic_handler, classify, on_error_429, on_unhandled, py_in, call, sleep.
  propagates_rules.
Qed.

Lemma emits_cycle cfg ce : emits in_cycle (cycle cfg ce).
Proof.
  assert (∀ ev, bool_decide (in_cycle ev) = true → in_cycle ev) as Hdec
      by (intros ev; apply bool_decide_eq_true_1).
  unfold cycle, body, handlers, generic_handler, classify, on_error_429,
    on_unhandled, py_in, call, sleep.
  emits_rules; (apply emits_emit || apply emits_collab); by apply Hdec.
Qed.

(** ** Interrupts *)

(** An interrupt raised by a call of the cycle leaves the cycle. *)
Lemma cycle_keyboard_interrupt cfg ce a s e :
  calls (events (cycle cfg ce a)) s = true →
  raises ce s = Some e →
  isinstance e KeyboardInterrupt = true →
  result (cycle cfg ce a) = Raise e.
Proof.
  unfold calls. intros Hs%bool_decide_eq_true_1 He Hki.
  pose proof (propagates_body ce a s e) as Hb.
  unfold cycle, try_except in *.
  destruct (body ce a) as [[[[]|e0] a1] l1]; simpl in *.
  - specialize (Hb Hs He). discriminate Hb.
  - rewrite events_after, fmap_app, elem_of_app in Hs.
    rewrite result_after. destruct Hs as [Hs|Hs].
    + specialize (Hb Hs He). injection Hb as ->.
      unfold handlers. by rewrite Hki.
    + revert Hs. unfold handlers.
      repeat match goal with |- context [isinstance e0 ?c] =>
               destruct (isinstance e0 c) end;
        try (by intros H%elem_of_nil);
        try (by intros H%list_elem_of_singleton).
      intros Hs.
      apply (propagates_generic_handler cfg ce e0 a1 s e Hs He).
Qed.

Lemma count_calls_app s l1 l2 :
  count_calls s (l1 ++ l2) = (count_calls s l1 + count_calls s l2)%nat.
Proof. unfold count_calls. by rewrite filter_app, length_app. Qed.

Lemma count_calls_in_cycle s l :
  Forall in_cycle l → Some s ∈ [Some L138_stop_web_server; Some L139_on_bot_exit; Some L140_log] →
  count_calls s l = 0%nat.
Proof.
  intros Hl Hs. unfold count_calls. induction Hl as [|ev l Hev Hl IH]; [done|].
  rewrite filter_cons. case_decide as Heq; [|exact IH].
  exfalso. apply Hev. by rewrite Heq.
Qed.

Lemma loop_in_cycle cfg env fuel n a :
  Forall in_cycle (events (loop cfg env fuel n a)).
Proof.
  revert n a. induction fuel as [|fuel IH]; intros n a; simpl; [constructor|].
  pose proof (emits_cycle cfg (env n) a) as Hc.
  destruct (cycle cfg (env n) a) as [[[[]|e] a1] l1]; [|exact Hc].
  rewrite events_after. apply Forall_app. split; [exact Hc | apply IH].
Qed.

Lemma on_keyboard_interrupt_returns cfg ce a :
  all_return ce [L138_stop_web_server; L139_on_bot_exit; L140_log] →
  on_keyboard_interrupt cfg ce a = (Ret tt, a, exit_events cfg).
Proof.
  rewrite !all_return_cons. intros (H1 & H2 & H3 & _).
  unfold on_keyboard_interrupt, exit_events, call.
  destruct (web_server_enabled cfg).
  - by rewrite !bind_collab_returns.
  - rewrite bind_ret. by rewrite !bind_collab_returns.
Qed.

(** C5. An operator interrupt ([KeyboardInterrupt]) raised by any call the
    [n]-th cycle makes -- a step of the [try] block, the sleep of line 86
    or a sleep of the failure handler (lines 125 and 133) -- is swallowed
    by no [except] clause: the cycle raises it, no further cycle starts,
    the exit hook [PluginsManager.on_bot_exit] is called exactly once in
    the whole run and [main] returns, provided the calls of lines 138-140
    return. *)
Theorem keyboard_interrupt_stops_main cfg env n fuel a an l s e :
  loop cfg env n 0 a = (Unfinished, an, l) →
  calls (events (cycle cfg (env n) an)) s = true →
  raises (env n) s = Some e →
  isinstance e KeyboardInterrupt = true →
  all_return (env n) [L138_stop_web_server; L139_on_bot_exit; L140_log] →
  (n < fuel)%nat →
  result (cycle cfg (env n) an) = Raise e
  ∧ main cfg env fuel a
    = (Returned, final (cycle cfg (env n) an),
       l ++ events (cycle cfg (env n) an) ++ exit_events cfg)
  ∧ count_calls L139_on_bot_exit (events (main cfg env fuel a)) = 1%nat.
Proof.
  intros Hloop Hs He Hki Hexit Hfuel.
  pose proof (cycle_keyboard_interrupt cfg (env n) an s e Hs He Hki) as Hc.
  pose proof (loop_in_cycle cfg env n 0 a) as Hl. rewrite Hloop in Hl.
  pose proof (emits_cycle cfg (env n) an) as Hlc.
  destruct (cycle cfg (env n) an) as [[r ac] lc] eqn:Hcycle.
  unfold result in Hc; simpl in Hc. subst r.
  assert (main cfg env fuel a = (Returned, ac, l ++ lc ++ exit_events cfg)) as Hmain.
  { unfold main. replace fuel with (n + S (fuel - S n))%nat by lia.
    rewrite (loop_app _ _ _ _ _ _ _ _ Hloop).
    rewrite Nat.add_0_r, (loop_cycle_raises _ _ _ _ _ _ _ _ Hcycle).
    unfold after at 1; simpl. rewrite Hki.
    rewrite (on_keyboard_interrupt_returns _ _ _ Hexit).
    unfold after, result, final, events; simpl. by rewrite <- app_assoc. }
  split; [done|]. split; [exact Hmain|].
  rewrite Hmain. unfold events; simpl in *.
  rewrite !count_calls_app.
  rewrite (count_calls_in_cycle _ _ Hl), (count_calls_in_cycle _ _ Hlc)
    by (rewrite !elem_of_cons; auto).
  unfold exit_events. by destruct (web_server_enabled cfg).
Qed.

(** ** The successful cycle and the ignored failures *)

(** C6. A cycle whose [try] block runs to its end made the calls of lines
    76-86 in the order of the source -- conversion rates, pre-cycle hook,
    transfers, cancellation, lending, post-cycle hook, status (total lent,
    its text, the maximal duration, refresh, persist, flush), sleep of the
    cycle interval -- each call having returned before the next was made;
    and in every cycle the events of the block are an initial segment of
    that list. *)
Theorem successful_cycle_order cfg ce a :
  result (body ce a) = Ret tt →
  cycle cfg ce a = (Ret tt, a, body_events ce)
  ∧ all_return ce body_sites
  ∧ ∀ ce' a', events (body ce' a') `prefix_of` body_events ce'.
Proof.
  intros H. destruct (body ce a) as [[r a1] l1] eqn:Hb.
  unfold result in H; simpl in H. subst r.
  pose proof (body_returns_inv _ _ _ _ Hb) as Hall.
  split; [|split; [exact Hall | intros; apply body_prefix]].
  apply cycle_body_returns. by apply body_returns.
Qed.

(** C7. A [BadStatusLine] or a [URLError] (one that is no
    [KeyboardInterrupt]) raised in the [try] block is caught by its
    clause: the cycle prints one line and ends normally, with no sleep, no
    call of the logger and the adapter untouched, and the loop goes on
    with the next cycle. *)
Theorem transport_failure_ignored cfg ce a l1 ex :
  body ce a = (Raise ex, a, l1) →
  isinstance ex KeyboardInterrupt = false →
  isinstance ex BadStatusLine || isinstance ex URLError = true →
  let line :=
    if isinstance ex BadStatusLine
    then "Caught BadStatusLine exception from Poloniex, ignoring."
    else "Caught " +:+ exc_str ex +:+ " from exchange, ignoring." in
  cycle cfg ce a = (Ret tt, a, l1 ++ [print line])
  ∧ ∀ env fuel n, env n = ce →
      loop cfg env (S fuel) n a
      = after (l1 ++ [print line]) (loop cfg env fuel (S n) a).
Proof.
  intros Hb Hki Hcls line.
  assert (cycle cfg ce a = (Ret tt, a, l1 ++ [print line])) as Hc.
  { rewrite (cycle_body_raises _ _ _ _ _ _ Hb). unfold handlers, line.
    rewrite Hki. destruct (isinstance ex BadStatusLine); [reflexivity|].
    simpl in Hcls. by rewrite Hcls. }
  split; [exact Hc|]. intros env fuel n <-. by apply loop_cycle_returns.
Qed.

(** C9. An [ApiError] (an instance of none of the classes of the earlier
    clauses) raised in the [try] block is caught by its own clause,
    whatever its message and whatever [in] would answer on it: the cycle
    prints one line and ends normally -- no sleep, no [log_error], nothing
    raised, the adapter untouched -- and the loop goes on with the next
    cycle. *)
Theorem api_error_ignored cfg ce a l1 ex :
  body ce a = (Raise ex, a, l1) →
  isinstance ex ApiError = true →
  isinstance ex KeyboardInterrupt = false →
  isinstance ex BadStatusLine = false →
  isinstance ex URLError = false →
  let line := "Caught " +:+ exc_str ex +:+ " reading from exchange API, ignoring." in
  cycle cfg ce a = (Ret tt, a, l1 ++ [print line])
  ∧ ∀ env fuel n, env n = ce →
      loop cfg env (S fuel) n a
      = after (l1 ++ [print line]) (loop cfg env fuel (S n) a).
Proof.
  intros Hb Hapi Hki Hbsl Hurl line.
  assert (cycle cfg ce a = (Ret tt, a, l1 ++ [print line])) as Hc.
  { rewrite (cycle_body_raises _ _ _ _ _ _ Hb). unfold handlers, line.
    by rewrite Hki, Hbsl, Hurl, Hapi. }
  split; [exact Hc|]. intros env fuel n <-. by apply loop_cycle_returns.
Qed.

(** ** What the failure handler does to the adapter *)

Ltac case_raises ce :=
  repeat match goal with
         | |- context [raises ce ?s] => destruct (raises ce s) eqn:?
         end.








(** ** The branches of the failure handler *)

Ltac run_handler :=
  unfold generic_handler, classify, on_error_429, on_unhandled, py_in, call,
    sleep, get_sleep_time, bind, collab, emit, get_api, set_req_period, ret, raise.

Ltac use_returns H :=
  repeat (apply all_return_cons in H as [?H H]);
  repeat match goal with
         | Hr : raises _ _ = _ |- _ => rewrite ?Hr; clear Hr
         end.

Lemma no_fatal_needle_inv f :
  no_fatal_needle f = true →
  f "Invalid API key" = false ∧ f "Nonce must be greater" = false
  ∧ f "Permission denied" = false.
Proof.
  unfold no_fatal_needle.
  destruct (f "Invalid API key"), (f "Nonce must be greater"),
    (f "Permission denied"); simpl; intros H; done.
Qed.

(** On an exception whose class does not support [in], the handler logs
    and raises [TypeError] from the first test of the chain. *)
Lemma generic_handler_not_iterable cfg ce ex a :
  exc_contains ex = None →
  all_return ce [L97_log_error; L98_persistStatus] →
  generic_handler cfg ce ex a
  = (Raise (not_iterable ex), a,
     [log_error L97_log_error (exc_str ex); called L98_persistStatus]).
Proof.
  intros Hc Hr. run_handler. use_returns Hr. by rewrite Hc.
Qed.

Lemma generic_handler_recovers cfg ce ex f a :
  exc_contains ex = Some f →
  no_fatal_needle f = true →
  f "Error 429" = false →
  all_return ce [L97_log_error; L98_persistStatus; L131_notify; L132_flush; L133_sleep] →
  generic_handler cfg ce ex a
  = (Ret tt, a,
     [log_error L97_log_error (exc_str ex); called L98_persistStatus]
       ++ report_events cfg ce ex (f "timed out")
       ++ [called L132_flush; time_sleep L133_sleep (interval ce)]).
Proof.
  intros Hc (H1 & H2 & H3)%no_fatal_needle_inv H429 Hr.
  run_handler. use_returns Hr. rewrite Hc. unfold report_events.
  cbv [after result final events]; simpl. rewrite H1, H2, H3; simpl.
  destruct (f "timed out"); simpl; [reflexivity|].
  rewrite H429; simpl. by destruct (notify_caught_exception cfg).
Qed.

(** C1, as the code has it. An exception that reaches the clause
    [except Exception], whose class supports [in] and on which the tests
    for 'Invalid API key', 'Nonce must be greater', 'Permission denied' and
    'Error 429' are false: the handler logs it ([log_error],
    [persistStatus]); when 'timed out' is found it prints the retry line
    and notifies nobody, otherwise it prints the traceback and the version
    line and notifies exactly when [notify_caught_exception] is set; then
    it flushes and sleeps the cycle interval, once. With its collaborator
    calls returning it raises nothing, and the loop goes on with the next
    cycle. *)
Theorem unrecognised_failure_recovered cfg ce a l1 ex f :
  body ce a = (Raise ex, a, l1) →
  reaches_generic_handler ex = true →
  exc_contains ex = Some f →
  no_fatal_needle f = true →
  f "Error 429" = false →
  all_return ce [L97_log_error; L98_persistStatus; L131_notify; L132_flush; L133_sleep] →
  let lh :=
    [log_error L97_log_error (exc_str ex); called L98_persistStatus]
      ++ report_events cfg ce ex (f "timed out")
      ++ [called L132_flush; time_sleep L133_sleep (interval ce)] in
  cycle cfg ce a = (Ret tt, a, l1 ++ lh)
  ∧ slept lh = [interval ce]
  ∧ ∀ env fuel n, env n = ce →
      loop cfg env (S fuel) n a = after (l1 ++ lh) (loop cfg env fuel (S n) a).
Proof.
  intros Hb Hg Hc Hf H429 Hr lh.
  assert (cycle cfg ce a = (Ret tt, a, l1 ++ lh)) as Hcycle.
  { rewrite (cycle_body_raises _ _ _ _ _ _ Hb), (handlers_generic _ _ _ Hg).
    by rewrite (generic_handler_recovers _ _ _ _ _ Hc Hf H429 Hr). }
  split; [exact Hcycle|]. split.
  - unfold lh, report_events.
    by destruct (f "timed out"), (notify_caught_exception cfg).
  - intros env fuel n <-. by apply loop_cycle_returns.
Qed.

(** The 'Error 429' branch, all calls returning. *)
Lemma generic_handler_error_429 cfg ce ex f a :
  exc_contains ex = Some f →
  selects_error_429 f = true →
  all_return ce [L97_log_error; L98_persistStatus; L117_log_error;
                 L124_log_error; L125_sleep; L132_flush; L133_sleep] →
  let additional_sleep := py_max (num_sub cfg 130 (interval ce)) 0 in
  let bump := has_analyseCurrencies cfg
              && Qle_bool (req_period a) (num_mul cfg (default_req_period a) 1.5) in
  let a' := if bump then mk_api (num_add cfg (req_period a) 3) (default_req_period a)
            else a in
  generic_handler cfg ce ex a
  = (Ret tt, a',
     [log_error L97_log_error (exc_str ex); called L98_persistStatus;
      log_error L117_log_error
        ("IP has been banned due to many requests. Sleeping for "
           +:+ str_num cfg (num_add cfg additional_sleep (interval ce))
           +:+ " seconds")]
       ++ (if has_analyseCurrencies cfg && ma_debug_log cfg then
             [print ("Caught ERR_RATE_LIMIT, sleeping capture and increasing request delay. Current "
                       +:+ str_num cfg (req_period a') +:+ "ms");
              log_error L124_log_error
                "Expect this 130s ban periodically when using MarketAnalysis, it will fix itself"]
           else [])
       ++ [time_sleep L125_sleep additional_sleep; called L132_flush;
           time_sleep L133_sleep (interval ce)]).
Proof.
  unfold selects_error_429.
  intros Hc [[Hf Hto%negb_true_iff]%andb_true_iff H429]%andb_true_iff Hr.
  apply no_fatal_needle_inv in Hf as (H1 & H2 & H3).
  run_handler. use_returns Hr. rewrite Hc.
  cbv [after result final events]; simpl. rewrite H1, H2, H3, Hto, H429; simpl.
  destruct (has_analyseCurrencies cfg); simpl; [|reflexivity].
  destruct (Qle_bool (req_period a) (num_mul cfg (default_req_period a) 1.5));
    destruct (ma_debug_log cfg); reflexivity.
Qed.

(** In exact arithmetic the two sleeps of the 'Error 429' branch add up
    to the larger of 130 seconds and the cycle interval. *)
Lemma error_429_total_sleep (t : Q) :
  (py_max (130 - t) 0 + t == Qmax 130 t)%Q.
Proof.
  unfold py_max, Qlt_bool.
  destruct (Qle_bool 0 (130 - t)) eqn:H; simpl.
  - apply Qle_bool_iff in H. rewrite Q.max_l; lra.
  - assert (¬ (0 <= 130 - t)%Q) as Hn
        by (intros Hle%Qle_bool_iff; congruence).
    rewrite Q.max_r; lra.
Qed.

(** ** The adapter's request period *)


(** The 'Error 429' branch with [MarketAnalysis.analyseCurrencies]
    absent, the collaborator calls returning: the adapter is left as it
    was, while the additional sleep of [max(130.0 - interval, 0)] seconds
    and the sleep of the interval both happen; and [req_period] differs
    afterwards only if the option is set. *)
Lemma error_429_frame cfg ce ex f a :
  exc_contains ex = Some f →
  selects_error_429 f = true →
  all_return ce [L97_log_error; L98_persistStatus; L117_log_error;
                 L124_log_error; L125_sleep; L132_flush; L133_sleep] →
  let additional_sleep := py_max (num_sub cfg 130 (interval ce)) 0 in
  let o := generic_handler cfg ce ex a in
  (has_analyseCurrencies cfg = false →
   o = (Ret tt, a,
        [log_error L97_log_error (exc_str ex); called L98_persistStatus;
         log_error L117_log_error
           ("IP has been banned due to many requests. Sleeping for "
              +:+ str_num cfg (num_add cfg additional_sleep (interval ce))
              +:+ " seconds");
         time_sleep L125_sleep additional_sleep;
         called L132_flush; time_sleep L133_sleep (interval ce)]))
  ∧ slept (events o) = [additional_sleep; interval ce]
  ∧ (req_period (final o) ≠ req_period a → has_analyseCurrencies cfg = true).
Proof.
  intros Hc Hsel Hr additional_sleep o. unfold o, additional_sleep.
  rewrite (generic_handler_error_429 _ _ _ _ _ Hc Hsel Hr).
  split; [|split].
  - by intros ->.
  - unfold events; simpl.
    by destruct (has_analyseCurrencies cfg), (ma_debug_log cfg).
  - unfold final; simpl. by destruct (has_analyseCurrencies cfg).
Qed.

(** ** The factory *)

Lemma dom_EXCHANGE :
  dom ExchangeApiFactory.EXCHANGE = ({["POLONIEX"; "BITFINEX"]} : gset string).
Proof.
  unfold ExchangeApiFactory.EXCHANGE.
  rewrite !dom_insert_L, dom_empty_L. set_solver.
Qed.

(** C8. [createApi] on an identifier outside the keys of [EXCHANGE] raises
    [Exception("Invalid exchange: " + exchange)] and calls no class; on
    'POLONIEX' and on 'BITFINEX' it calls the class of that key once, and
    nothing else, and its result is the result of that call. *)
Theorem createApi_selects (instance : Type)
    (new : ExchangeApiFactory.api_class → res instance) (exchange : string) :
  (exchange = "POLONIEX"
   ∧ ExchangeApiFactory.createApi instance new exchange
     = ([ExchangeApiFactory.Poloniex], new ExchangeApiFactory.Poloniex))
  ∨ (exchange = "BITFINEX"
     ∧ ExchangeApiFactory.createApi instance new exchange
       = ([ExchangeApiFactory.Bitfinex], new ExchangeApiFactory.Bitfinex))
  ∨ ((exchange ∉ dom ExchangeApiFactory.EXCHANGE)
     ∧ exchange ≠ "POLONIEX" ∧ exchange ≠ "BITFINEX"
     ∧ ExchangeApiFactory.createApi instance new exchange
       = ([], Raise (new_Exception ("Invalid exchange: " +:+ exchange)))).
Proof.
  destruct (decide (exchange = "POLONIEX")) as [->|Hp]; [left; by split|].
  destruct (decide (exchange = "BITFINEX")) as [->|Hb]; [right; left; by split|].
  right; right.
  assert (exchange ∉ dom ExchangeApiFactory.EXCHANGE) as Hd
      by (rewrite dom_EXCHANGE, elem_of_union, !elem_of_singleton; tauto).
  repeat split; try done.
  unfold ExchangeApiFactory.createApi. by rewrite bool_decide_eq_true_2.
Qed.

(** ** The built-in exceptions in the failure handler *)

(** C2, on the code. [Exception('Invalid API key')] raised by the first
    call of the cycle reaches the clause [except Exception]; the test
    ['Invalid API key' in ex] raises [TypeError]: no troubleshooting line
    is printed, and the exception that leaves [main] is the [TypeError],
    not the one that was caught. *)
Theorem invalid_api_key_raises_type_error :
  str_in "Invalid API key" (exc_str (new_Exception "Invalid API key")) = true
  ∧ reaches_generic_handler (new_Exception "Invalid API key") = true
  ∧ main (sample_config false false false)
         (λ _, raising [(L76_update_conversion_rates,
                         new_Exception "Invalid API key")] 60)
         1 (mk_api 1000 1000)
    = (Propagated
         (mk_exn [TypeError; Exception; BaseException]
                 "argument of type 'Exception' is not iterable" None),
       mk_api 1000 1000,
       [called L76_update_conversion_rates;
        log_error L97_log_error "Invalid API key";
        called L98_persistStatus]).
Proof. repeat split; reflexivity. Qed.

(** C3, on the code. [Exception('Error 429')] raised by a call of the
    cycle reaches the clause [except Exception]; the first test of the
    chain raises [TypeError]: the run sleeps not at all and [main] is left
    by the [TypeError] instead of going on with the next cycle. *)
Theorem error_429_raises_type_error :
  str_in "Error 429" (exc_str (new_Exception "Error 429")) = true
  ∧ reaches_generic_handler (new_Exception "Error 429") = true
  ∧ main (sample_config true false false)
         (λ _, raising [(L80_lend_all, new_Exception "Error 429")] 60)
         3 (mk_api 1000 1000)
    = (Propagated
         (mk_exn [TypeError; Exception; BaseException]
                 "argument of type 'Exception' is not iterable" None),
       mk_api 1000 1000,
       [called L76_update_conversion_rates; called L77_before_lending;
        called L78_transfer_balances; called L79_cancel_all; called L80_lend_all;
        log_error L97_log_error "Error 429"; called L98_persistStatus])
  ∧ slept (events (main (sample_config true false false)
                        (λ _, raising [(L80_lend_all, new_Exception "Error 429")] 60)
                        3 (mk_api 1000 1000))) = [].
Proof. repeat split; reflexivity. Qed.

(** C10, on the code. With [MarketAnalysis.analyseCurrencies] absent,
    [Exception('Error 429')] raised by a call of the cycle reaches the
    clause [except Exception]; the adapter is left as it was, but the
    test of line 99 raises [TypeError] before line 114 is reached: the
    additional sleep does not occur, nor any other, and the [TypeError]
    leaves [main]. *)
Theorem error_429_without_option_never_sleeps :
  has_analyseCurrencies (sample_config false false false) = false
  ∧ str_in "Error 429" (exc_str (new_Exception "Error 429")) = true
  ∧ reaches_generic_handler (new_Exception "Error 429") = true
  ∧ main (sample_config false false false)
         (λ _, raising [(L79_cancel_all, new_Exception "Error 429")] 60)
         3 (mk_api 1000 1000)
    = (Propagated
         (mk_exn [TypeError; Exception; BaseException]
                 "argument of type 'Exception' is not iterable" None),
       mk_api 1000 1000,
       [called L76_update_conversion_rates; called L77_before_lending;
        called L78_transfer_balances; called L79_cancel_all;
        log_error L97_log_error "Error 429"; called L98_persistStatus])
  ∧ slept (events (main (sample_config false false false)
                        (λ _, raising [(L79_cancel_all, new_Exception "Error 429")] 60)
                        3 (mk_api 1000 1000))) = [].
Proof. repeat split; reflexivity. Qed.

(** ** Counterexamples *)

(** C1 as stated fails. A failure whose message holds none of the fatal
    or rate-limit needles but 'timed out', with notification configured:
    on an exception whose class answers [in] from the message the handler
    recovers and notifies nobody; on the built-in [Exception] it raises
    [TypeError] and does not sleep. *)
Lemma timed_out_failure_not_notified :
  no_fatal_needle (λ needle, str_in needle "Connection timed out") = true
  ∧ str_in "Error 429" "Connection timed out" = false
  ∧ notify_caught_exception (sample_config false false true) = true
  ∧ generic_handler (sample_config false false true) (quiet 60)
      (text_exception "Connection timed out") (mk_api 1000 1000)
    = (Ret tt, mk_api 1000 1000,
       [log_error L97_log_error "Connection timed out";
        called L98_persistStatus;
        print "Timed out, will retry in <num>sec";
        called L132_flush; time_sleep L133_sleep 60])
  ∧ generic_handler (sample_config false false true) (quiet 60)
      (new_Exception "Connection timed out") (mk_api 1000 1000)
    = (Raise (not_iterable (new_Exception "Connection timed out")),
       mk_api 1000 1000,
       [log_error L97_log_error "Connection timed out";
        called L98_persistStatus]).
Proof. repeat split; reflexivity. Qed.


(** ** The theorems at concrete inputs *)

Ltac returns_here :=
  let s := fresh "s" in
  let Hs := fresh "Hs" in
  intros s Hs;
  repeat (apply elem_of_cons in Hs as [->|Hs]; [reflexivity|]);
  by apply elem_of_nil in Hs.

Lemma successful_cycle_order_witness :
  cycle (sample_config false false false) (quiet 60) (mk_api 1000 1000)
  = (Ret tt, mk_api 1000 1000, body_events (quiet 60)).
Proof.
  exact (proj1 (successful_cycle_order (sample_config false false false)
                  (quiet 60) (mk_api 1000 1000) eq_refl)).
Defined.

Lemma transport_failure_ignored_witness :
  cycle (sample_config false false false)
        (raising [(L78_transfer_balances, url_error)] 60) (mk_api 1000 1000)
  = (Ret tt, mk_api 1000 1000,
     [called L76_update_conversion_rates; called L77_before_lending;
      called L78_transfer_balances;
      print "Caught <urlopen error [Errno 111] Connection refused> from exchange, ignoring."]).
Proof.
  exact (proj1 (transport_failure_ignored (sample_config false false false)
                  (raising [(L78_transfer_balances, url_error)] 60)
                  (mk_api 1000 1000)
                  [called L76_update_conversion_rates; called L77_before_lending;
                   called L78_transfer_balances]
                  url_error eq_refl eq_refl eq_refl)).
Defined.

Lemma api_error_ignored_witness :
  cycle (sample_config false false false)
        (raising [(L76_update_conversion_rates, new_ApiError "Invalid API key")] 60)
        (mk_api 1000 1000)
  = (Ret tt, mk_api 1000 1000,
     [called L76_update_conversion_rates;
      print "Caught Invalid API key reading from exchange API, ignoring."]).
Proof.
  exact (proj1 (api_error_ignored (sample_config false false false)
                  (raising [(L76_update_conversion_rates,
                             new_ApiError "Invalid API key")] 60)
                  (mk_api 1000 1000) [called L76_update_conversion_rates]
                  (new_ApiError "Invalid API key")
                  eq_refl eq_refl eq_refl eq_refl eq_refl)).
Defined.

Lemma unrecognised_failure_recovered_witness :
  cycle (sample_config false false true)
        (raising [(L79_cancel_all, text_exception "502 Bad Gateway")] 60)
        (mk_api 1000 1000)
  = (Ret tt, mk_api 1000 1000,
     [called L76_update_conversion_rates; called L77_before_lending;
      called L78_transfer_balances; called L79_cancel_all;
      log_error L97_log_error "502 Bad Gateway"; called L98_persistStatus;
      print "<traceback>";
      print "v1.0 Unhandled error, please open a Github issue so we can fix it!";
      log_notify L131_notify
        ("502 Bad Gateway" +:+ nl +:+ "-------" +:+ nl +:+ "<traceback>");
      called L132_flush; time_sleep L133_sleep 60]).
Proof.
  refine (proj1 (unrecognised_failure_recovered (sample_config false false true)
                   (raising [(L79_cancel_all, text_exception "502 Bad Gateway")] 60)
                   (mk_api 1000 1000)
                   [called L76_update_conversion_rates; called L77_before_lending;
                    called L78_transfer_balances; called L79_cancel_all]
                   (text_exception "502 Bad Gateway")
                   (λ needle, str_in needle "502 Bad Gateway")
                   eq_refl eq_refl eq_refl eq_refl eq_refl _)).
  returns_here.
Defined.


Lemma error_429_frame_witness :
  generic_handler (sample_config false false false) (quiet 60)
    (text_exception "Error 429") (mk_api 1000 1000)
  = (Ret tt, mk_api 1000 1000,
     [log_error L97_log_error "Error 429"; called L98_persistStatus;
      log_error L117_log_error
        "IP has been banned due to many requests. Sleeping for <num> seconds";
      time_sleep L125_sleep 70; called L132_flush; time_sleep L133_sleep 60]).
Proof.
  refine (proj1 (error_429_frame (sample_config false false false) (quiet 60)
                   (text_exception "Error 429")
                   (λ needle, str_in needle "Error 429") (mk_api 1000 1000)
                   eq_refl eq_refl _) eq_refl).
  apply all_return_quiet.
Defined.

Lemma keyboard_interrupt_stops_main_witness :
  main (sample_config false false false) interrupted_run 5 (mk_api 1000 1000)
  = (Returned, mk_api 1000 1000,
     body_events (quiet 60)
       ++ [called L76_update_conversion_rates; called L77_before_lending;
           called L78_transfer_balances; called L79_cancel_all;
           log_error L97_log_error "Connection timed out";
           called L98_persistStatus;
           print "Timed out, will retry in <num>sec";
           called L132_flush; time_sleep L133_sleep 60]
       ++ [called L139_on_bot_exit; log_log L140_log "bye"; print "bye"]).
Proof.
  refine (proj1 (proj2 (keyboard_interrupt_stops_main
                          (sample_config false false false) interrupted_run 1 5
                          (mk_api 1000 1000) (mk_api 1000 1000)
                          (body_events (quiet 60)) L133_sleep
                          new_KeyboardInterrupt
                          eq_refl eq_refl eq_refl eq_refl _ _))).
  - returns_here.
  - repeat constructor.
Defined.

(** * Further properties of the loop *)

(** ** How a run ends *)

Lemma loop_raises_at cfg env n fuel a an l e a' lc :
  loop cfg env n 0 a = (Unfinished, an, l) →
  cycle cfg (env n) an = (Raise e, a', lc) →
  (n < fuel)%nat →
  loop cfg env fuel 0 a = (Raised n e, a', l ++ lc).
Proof.
  intros Hloop Hc Hfuel.
  replace fuel with (n + S (fuel - S n))%nat by lia.
  rewrite (loop_app _ _ _ _ _ _ _ _ Hloop), Nat.add_0_r.
  by rewrite (loop_cycle_raises _ _ _ _ _ _ _ _ Hc).
Qed.

Lemma main_propagates cfg env fuel a n e a' l :
  loop cfg env fuel 0 a = (Raised n e, a', l) →
  isinstance e KeyboardInterrupt = false →
  main cfg env fuel a = (Propagated e, a', l).
Proof. intros Hl Hki. unfold main. by rewrite Hl, Hki. Qed.

Lemma not_iterable_no_interrupt ex :
  isinstance (not_iterable ex) KeyboardInterrupt = false.
Proof. reflexivity. Qed.

(** X1. Any exception that reaches the clause [except Exception] and
    whose class does not support [in] -- whatever its message -- ends the
    run: it is logged, the status persisted, and [main] is left by the
    [TypeError] of the first test of line 99, without sleep, without
    retry and with the adapter as it was. *)
Theorem not_iterable_failure_ends_run cfg env n fuel a an l l1 ex :
  loop cfg env n 0 a = (Unfinished, an, l) →
  body (env n) an = (Raise ex, an, l1) →
  reaches_generic_handler ex = true →
  exc_contains ex = None →
  all_return (env n) [L97_log_error; L98_persistStatus] →
  (n < fuel)%nat →
  main cfg env fuel a
  = (Propagated (not_iterable ex), an,
     l ++ l1 ++ [log_error L97_log_error (exc_str ex); called L98_persistStatus]).
Proof.
  intros Hloop Hb Hg Hc Hr Hfuel.
  apply (main_propagates _ _ _ _ n); [|apply not_iterable_no_interrupt].
  apply (loop_raises_at _ _ _ _ _ _ _ _ _ _ Hloop); [|exact Hfuel].
  rewrite (cycle_body_raises _ _ _ _ _ _ Hb), (handlers_generic _ _ _ Hg).
  by rewrite (generic_handler_not_iterable _ _ _ _ Hc Hr).
Qed.

(** X2. On an exception whose class supports [in], the first needle found
    among 'Invalid API key', 'Nonce must be greater' and 'Permission
    denied', in this order, decides: the handler logs, prints the
    troubleshooting header and the hint of that needle, and re-raises the
    exception it caught, without flushing and without sleeping. *)
Theorem fatal_needle_reraised cfg ce ex f a :
  exc_contains ex = Some f →
  all_return ce [L97_log_error; L98_persistStatus] →
  let logged := [log_error L97_log_error (exc_str ex); called L98_persistStatus;
                 print "!!! Troubleshooting !!!"] in
  (f "Invalid API key" = true →
   generic_handler cfg ce ex a
   = (Raise ex, a,
      logged ++ [print "Are your API keys correct? No quotation. Just plain keys."]))
  ∧ (f "Invalid API key" = false → f "Nonce must be greater" = true →
     generic_handler cfg ce ex a
     = (Raise ex, a,
        logged ++ [print "Are you reusing the API key in multiple applications? Use a unique key for every application."]))
  ∧ (f "Invalid API key" = false → f "Nonce must be greater" = false →
     f "Permission denied" = true →
     generic_handler cfg ce ex a
     = (Raise ex, a,
        logged ++ [print "Are you using IP filter on the key? Maybe your IP changed?"])).
Proof.
  intros Hc Hr logged. unfold logged.
  run_handler. use_returns Hr. rewrite Hc.
  repeat split; intros; repeat match goal with H : f _ = _ |- _ => rewrite H; clear H end;
    reflexivity.
Qed.

(** X3. 'timed out' is tested before 'Error 429': on a failure where both
    are found (and no fatal needle) the handler prints the retry line and
    sleeps the cycle interval only -- no additional sleep, no change of
    [req_period], also with [MarketAnalysis.analyseCurrencies] set. *)
Theorem timed_out_precedes_error_429 cfg ce ex f a :
  exc_contains ex = Some f →
  no_fatal_needle f = true →
  f "timed out" = true →
  f "Error 429" = true →
  all_return ce [L97_log_error; L98_persistStatus; L132_flush; L133_sleep] →
  generic_handler cfg ce ex a
  = (Ret tt, a,
     [log_error L97_log_error (exc_str ex); called L98_persistStatus;
      print ("Timed out, will retry in " +:+ str_num cfg (interval ce) +:+ "sec");
      called L132_flush; time_sleep L133_sleep (interval ce)]).
Proof.
  intros Hc (H1 & H2 & H3)%no_fatal_needle_inv Hto _ Hr.
  run_handler. use_returns Hr. rewrite Hc.
  by rewrite H1, H2, H3, Hto.
Qed.

(** X4. In the 'Error 429' branch the additional sleep is
    [max(130.0 - interval, 0)] as the interpreter computes the difference,
    and it is never negative, whatever the rounding. Where the difference
    is exact, the two sleeps of the cycle add up to the larger of 130
    seconds and the interval, and the additional sleep is zero for an
    interval of 130 seconds or more. *)
Theorem error_429_additional_sleep cfg ce ex f a :
  exc_contains ex = Some f →
  selects_error_429 f = true →
  all_return ce [L97_log_error; L98_persistStatus; L117_log_error;
                 L124_log_error; L125_sleep; L132_flush; L133_sleep] →
  let additional := py_max (num_sub cfg 130 (interval ce)) 0 in
  slept (events (generic_handler cfg ce ex a)) = [additional; interval ce]
  ∧ (0 <= additional)%Q
  ∧ ((num_sub cfg 130 (interval ce) == 130 - interval ce)%Q →
     (additional + interval ce == Qmax 130 (interval ce))%Q
     ∧ ((130 <= interval ce)%Q → (additional == 0)%Q)).
Proof.
  intros Hc Hsel Hr additional. split; [|split].
  - rewrite (generic_handler_error_429 _ _ _ _ _ Hc Hsel Hr).
    unfold events; simpl.
    by destruct (has_analyseCurrencies cfg), (ma_debug_log cfg).
  - unfold additional, py_max, Qlt_bool.
    destruct (Qle_bool 0 (num_sub cfg 130 (interval ce))) eqn:H; simpl;
      [|apply Qle_refl].
    by apply Qle_bool_iff.
  - intros Hexact. unfold additional, py_max, Qlt_bool.
    destruct (Qle_bool 0 (num_sub cfg 130 (interval ce))) eqn:H; simpl.
    + apply Qle_bool_iff in H. split; [rewrite Q.max_l; lra | intros; lra].
    + assert (¬ (0 <= num_sub cfg 130 (interval ce))%Q) as Hn
          by (intros Hle%Qle_bool_iff; congruence).
      split; [rewrite Q.max_r; lra | intros; lra].
Qed.

(** ** The exit hook *)

Lemma on_keyboard_interrupt_returns_inv cfg ce a a' l :
  on_keyboard_interrupt cfg ce a = (Ret tt, a', l) →
  a' = a ∧ l = exit_events cfg.
Proof.
  unfold on_keyboard_interrupt, exit_events, call, bind, collab, emit, ret.
  destruct (web_server_enabled cfg); case_raises ce;
    cbv [after]; simpl; intros H; try discriminate H;
    by injection H as <- <-.
Qed.

Lemma on_keyboard_interrupt_hook_once cfg ce a :
  (count_calls L139_on_bot_exit (events (on_keyboard_interrupt cfg ce a)) ≤ 1)%nat.
Proof.
  unfold on_keyboard_interrupt, call, bind, collab, emit, ret.
  destruct (web_server_enabled cfg); case_raises ce;
    cbv [after events count_calls]; simpl; lia.
Qed.

Lemma count_calls_loop cfg env fuel n a s :
  Some s ∈ [Some L138_stop_web_server; Some L139_on_bot_exit; Some L140_log] →
  count_calls s (events (loop cfg env fuel n a)) = 0%nat.
Proof. intros Hs. by apply count_calls_in_cycle; [apply loop_in_cycle|]. Qed.

(** X6. In every run [PluginsManager.on_bot_exit] is called at most once,
    and only after a [KeyboardInterrupt] left the loop; and [main] returns
    only that way: a run that returns ends with the events of lines
    137-141, the exit hook among them, after the events of the loop. *)
Theorem exit_hook_only_on_interrupt cfg env fuel a :
  (count_calls L139_on_bot_exit (events (main cfg env fuel a)) ≤ 1)%nat
  ∧ (count_calls L139_on_bot_exit (events (main cfg env fuel a)) = 1%nat →
     ∃ n e, result (loop cfg env fuel 0 a) = Raised n e
            ∧ isinstance e KeyboardInterrupt = true)
  ∧ (result (main cfg env fuel a) = Returned →
     ∃ n e, result (loop cfg env fuel 0 a) = Raised n e
            ∧ isinstance e KeyboardInterrupt = true
            ∧ main cfg env fuel a
              = (Returned, final (loop cfg env fuel 0 a),
                 events (loop cfg env fuel 0 a) ++ exit_events cfg)).
Proof.
  pose proof (count_calls_loop cfg env fuel 0 a L139_on_bot_exit) as Hl.
  unfold main.
  destruct (loop cfg env fuel 0 a) as [[[|n e] a1] l1];
    unfold events in Hl; simpl in Hl;
    specialize (Hl ltac:(rewrite !elem_of_cons; auto)).
  { cbv [events result]; simpl. rewrite Hl.
    split; [lia|]. split; intros H; discriminate H. }
  destruct (isinstance e KeyboardInterrupt) eqn:Hki.
  - pose proof (on_keyboard_interrupt_hook_once cfg (env n) a1) as Hx.
    pose proof (on_keyboard_interrupt_returns_inv cfg (env n) a1) as Hr.
    destruct (on_keyboard_interrupt cfg (env n) a1) as [[[[]|e'] a2] l2];
      cbv [after events result final] in *; simpl in *;
      rewrite count_calls_app, Hl.
    + destruct (Hr a2 l2 eq_refl) as [-> ->].
      split; [exact Hx|]. split; intros _; exists n, e; auto.
    + split; [exact Hx|]. split; [intros _; exists n, e; auto|].
      intros H; discriminate H.
  - cbv [events result]; simpl. rewrite Hl.
    split; [lia|]. split; intros H; discriminate H.
Qed.

(** X7. With the web server enabled, [WebServer.stop_web_server] is called
    before the exit hook; when it raises, the exit hook is not called and
    its exception leaves [main] instead of a normal return. *)
Theorem stop_web_server_failure_skips_hook cfg env fuel a n e e' a' l :
  loop cfg env fuel 0 a = (Raised n e, a', l) →
  isinstance e KeyboardInterrupt = true →
  web_server_enabled cfg = true →
  raises (env n) L138_stop_web_server = Some e' →
  main cfg env fuel a = (Propagated e', a', l ++ [called L138_stop_web_server])
  ∧ count_calls L139_on_bot_exit (events (main cfg env fuel a)) = 0%nat.
Proof.
  intros Hloop Hki Hweb Hstop.
  pose proof (count_calls_loop cfg env fuel 0 a L139_on_bot_exit) as Hl.
  rewrite Hloop in Hl. unfold events in Hl; simpl in Hl.
  assert (main cfg env fuel a
          = (Propagated e', a', l ++ [called L138_stop_web_server])) as Hmain.
  { unfold main. rewrite Hloop, Hki.
    unfold on_keyboard_interrupt, call. rewrite Hweb.
    by rewrite (bind_collab_raises _ _ _ _ _ _ Hstop). }
  split; [exact Hmain|]. rewrite Hmain. unfold events; simpl.
  rewrite count_calls_app, Hl by (rewrite !elem_of_cons; auto).
  reflexivity.
Qed.

(** ** Runs without failure, failures inside the handler, other exceptions *)

Lemma loop_quiet cfg env k m a :
  (∀ n, (m ≤ n < m + k)%nat → all_return (env n) body_sites) →
  loop cfg env k m a
  = (Unfinished, a, concat ((λ n, body_events (env n)) <$> seq m k)).
Proof.
  revert m. induction k as [|k IH]; intros m Hq; [reflexivity|].
  simpl. rewrite (cycle_body_returns _ _ _ _ _ (body_returns _ a (Hq m ltac:(lia)))).
  rewrite IH by (intros n Hn; apply Hq; lia). reflexivity.
Qed.

(** X8. The loop does not stop by itself: as long as the calls of the
    [try] block return, every cycle is followed by the next one, each
    making the thirteen calls of lines 76-86 in order, and the adapter
    stays as it was. *)
Theorem quiet_run_keeps_going cfg env k a :
  (∀ n, (n < k)%nat → all_return (env n) body_sites) →
  main cfg env k a
  = (Running, a, concat ((λ n, body_events (env n)) <$> seq 0 k)).
Proof.
  intros Hq. unfold main.
  by rewrite loop_quiet by (intros n Hn; apply Hq; lia).
Qed.

(** X9. A failure inside the failure handler is not handled: when a call
    the handler makes ([log_error], [persistStatus], [notify], [flush],
    [sleep]) raises, that exception ends the run -- also when it is a
    [BadStatusLine], a [URLError] or an [ApiError], which the clauses
    ignore when the [try] block raises them. *)
Theorem handler_failure_ends_run cfg env n fuel a an l l1 ex s e :
  loop cfg env n 0 a = (Unfinished, an, l) →
  body (env n) an = (Raise ex, an, l1) →
  reaches_generic_handler ex = true →
  calls (events (generic_handler cfg (env n) ex an)) s = true →
  raises (env n) s = Some e →
  isinstance e KeyboardInterrupt = false →
  (n < fuel)%nat →
  result (main cfg env fuel a) = Propagated e
  ∧ events (main cfg env fuel a)
    = l ++ l1 ++ events (generic_handler cfg (env n) ex an).
Proof.
  intros Hloop Hb Hg Hs%bool_decide_eq_true_1 He Hki Hfuel.
  pose proof (propagates_generic_handler cfg (env n) ex an s e Hs He) as Hr.
  destruct (generic_handler cfg (env n) ex an) as [[r a'] lh] eqn:Hh.
  unfold result in Hr; simpl in Hr. subst r.
  rewrite (main_propagates _ _ _ _ n e a' (l ++ l1 ++ lh)); [done| |exact Hki].
  apply (loop_raises_at _ _ _ _ _ _ _ _ _ _ Hloop); [|exact Hfuel].
  rewrite (cycle_body_raises _ _ _ _ _ _ Hb), (handlers_generic _ _ _ Hg).
  by rewrite Hh.
Qed.

(** X10. An exception of the [try] block that is neither an [Exception]
    nor a [KeyboardInterrupt] (a [SystemExit], say) is matched by no
    clause: nothing is logged or printed, and it leaves [main] without the
    exit hook being called. *)
Theorem unmatched_exception_ends_run cfg env n fuel a an l l1 ex :
  loop cfg env n 0 a = (Unfinished, an, l) →
  body (env n) an = (Raise ex, an, l1) →
  isinstance ex KeyboardInterrupt = false →
  isinstance ex BadStatusLine = false →
  isinstance ex URLError = false →
  isinstance ex ApiError = false →
  isinstance ex Exception = false →
  (n < fuel)%nat →
  main cfg env fuel a = (Propagated ex, an, l ++ l1).
Proof.
  intros Hloop Hb Hki Hbsl Hurl Hapi Hexc Hfuel.
  apply (main_propagates _ _ _ _ n); [|exact Hki].
  apply (loop_raises_at _ _ _ _ _ _ _ _ _ _ Hloop); [|exact Hfuel].
  rewrite (cycle_body_raises _ _ _ _ _ _ Hb). unfold handlers.
  rewrite Hki, Hbsl, Hurl, Hapi, Hexc. unfold raise, after.
  by rewrite app_nil_r.
Qed.

(** * Properties of the start of [main] *)

Lemma all_start_cons se s sites :
  all_start se (s :: sites) ↔ Main.starts se s = None ∧ all_start se sites.
Proof.
  unfold all_start. split.
  - intros H. split; [apply H; left | intros s' Hs'; apply H; by right].
  - intros [H1 H2] s' [->|Hs']%elem_of_cons; auto.
Qed.

Lemma wbind_step_returns {B : Type} se s ev (k : unit → Main.W B) :
  Main.starts se s = None →
  Main.wbind (Main.step se s ev) k
  = match k tt with (l, r) => (ev :: l, r) end.
Proof. intros H. unfold Main.wbind, Main.step. by rewrite H. Qed.

Lemma wbind_wret {A B : Type} (x : A) (k : A → Main.W B) :
  Main.wbind (Main.wret x) k = k x.
Proof. unfold Main.wbind, Main.wret. by destruct (k x). Qed.

Ltac use_starts H :=
  repeat (apply all_start_cons in H as [?H H]);
  unfold Main.start;
  repeat match goal with
         | Hs : Main.starts _ _ = None |- _ =>
             rewrite ?(wbind_step_returns _ _ _ _ Hs); clear Hs
         end.

Lemma wbind_step_raises {B : Type} se s ev e (k : unit → Main.W B) :
  Main.starts se s = Some e →
  Main.wbind (Main.step se s ev) k = ([ev], Raise e).
Proof. intros H. unfold Main.wbind, Main.step. by rewrite H. Qed.

Lemma createApi_unknown se b :
  ExchangeApiFactory.EXCHANGE !! Main.exchange b = None →
  Main.createApi b se
  = ([], Raise (new_Exception ("Invalid exchange: " +:+ Main.exchange b))).
Proof.
  intros H. unfold Main.createApi, ExchangeApiFactory.createApi.
  rewrite bool_decide_eq_true_2; [done|]. by apply not_elem_of_dom.
Qed.

Lemma createApi_known se b c :
  ExchangeApiFactory.EXCHANGE !! Main.exchange b = Some c →
  Main.createApi b se = ([Main.constructed c], Main.new se c).
Proof.
  intros H. unfold Main.createApi, ExchangeApiFactory.createApi.
  rewrite bool_decide_eq_false_2, H; [done|].
  intros Hn. apply Hn, elem_of_dom. by exists c.
Qed.

(** X11. When the calls before line 53 return ([Config.init], the web
    server if enabled, the conversion of 'jsonlogsize' and [Logger]), an
    exchange identifier outside the keys of [EXCHANGE] stops [main] at
    line 53: no adapter class is called, nothing after line 53 runs, no
    cycle starts, and [Exception("Invalid exchange: " + exchange)] leaves
    [main]. *)
Theorem unsupported_exchange_stops_start cfg b se env fuel :
  ExchangeApiFactory.EXCHANGE !! Main.exchange b = None →
  all_start se [Main.L29_Config_init; Main.L47_initialize_web_server;
                Main.L50_Decimal; Main.L50_Logger] →
  Main.main cfg b se env fuel
  = (Propagated (new_Exception ("Invalid exchange: " +:+ Main.exchange b)),
     None,
     inl <$> ([Main.started Main.L29_Config_init]
                ++ (if web_server_enabled cfg
                    then [Main.started Main.L47_initialize_web_server] else [])
                ++ [Main.started Main.L50_Decimal;
                    Main.new_Logger (Main.json_output cfg b).2])).
Proof.
  intros Hx Hs. unfold Main.main, Main.startup.
  destruct (web_server_enabled cfg); use_starts Hs; rewrite ?wbind_wret;
    rewrite (createApi_unknown _ _ Hx); reflexivity.
Qed.

Section StartRules.

Variable se : Main.start_env.






End StartRules.




(** X13. Lines 35-44: with the web server enabled JSON output is enabled
    whatever the configuration says, and the file of the logger is read
    with the default 'www/botlog.json' exactly when 'jsonfile' and
    'jsonlogsize' are not both configured; without the web server the
    two options alone decide and the default is ''. A start that runs to
    its end has created the logger on that file and hands these values on. *)
Theorem web_server_forces_json_output cfg b se :
  (web_server_enabled cfg = true → (Main.json_output cfg b).1 = true)
  ∧ (web_server_enabled cfg = false →
     (Main.json_output cfg b).1 = Main.has_jsonfile b && Main.has_jsonlogsize b)
  ∧ (Main.json_output cfg b).2
    = Main.get_jsonfile b
        (if web_server_enabled cfg
            && negb (Main.has_jsonfile b && Main.has_jsonlogsize b)
         then "www/botlog.json" else "")
  ∧ ∀ loc, (Main.startup cfg b se).2 = Ret loc →
      Main.json_output_enabled loc = (Main.json_output cfg b).1
      ∧ Main.jsonfile loc = (Main.json_output cfg b).2
      ∧ Main.new_Logger (Main.json_output cfg b).2 ∈ (Main.startup cfg b se).1.
Proof.
  split; [|split; [|split]].
  - unfold Main.json_output. intros ->.
    by destruct (Main.has_jsonfile b), (Main.has_jsonlogsize b).
  - unfold Main.json_output. by intros ->.
  - unfold Main.json_output.
    by destruct (web_server_enabled cfg), (Main.has_jsonfile b),
      (Main.has_jsonlogsize b).
  - intros loc. unfold Main.startup, Main.start, Main.step, Main.createApi.
    generalize (Main.json_output cfg b). intros j.
    destruct (ExchangeApiFactory.createApi api_state (Main.new se) (Main.exchange b))
      as [classes [a|e]];
    destruct (web_server_enabled cfg), (has_analyseCurrencies cfg);
    unfold Main.wbind, Main.wret;
    repeat match goal with
           | |- context [Main.starts se ?s] => destruct (Main.starts se s)
           end;
    simpl; intros H; try discriminate H; injection H as <-; simpl;
    (split; [done|]); (split; [done|]);
    rewrite ?elem_of_cons; auto.
Qed.

(** X14. When the calls of the start return (the conversion of
    'jsonlogsize' on line 50 among them) and the exchange identifier is
    a key of [EXCHANGE] whose class returns an adapter, [main] runs the
    loop on that adapter. Before the first cycle the calls were made in
    the order of the source: the logger before the adapter, the adapter
    before [MaxToLend], [Data] and the second [Config.init], the market
    analysis constructed and run only with
    [MarketAnalysis.analyseCurrencies] set, then [Lending.init], the
    plugins and the welcome line. *)
Theorem start_hands_adapter_to_loop cfg b se env fuel c a :
  ExchangeApiFactory.EXCHANGE !! Main.exchange b = Some c →
  Main.new se c = Ret a →
  all_start se [Main.L29_Config_init; Main.L47_initialize_web_server;
                Main.L50_Decimal; Main.L50_Logger; Main.L54_MaxToLend_init;
                Main.L55_Data_init;
                Main.L56_Config_init; Main.L57_get_notification_config;
                Main.L61_MarketAnalysis; Main.L62_analysis_run;
                Main.L65_Lending_init; Main.L68_PluginsManager_init] →
  Main.startup cfg b se
  = (startup_events cfg b c,
     Ret (Main.mk_locals (Main.json_output cfg b).1 (Main.json_output cfg b).2 a))
  ∧ Main.main cfg b se env fuel
    = (result (main cfg env fuel a), Some (final (main cfg env fuel a)),
       (inl <$> startup_events cfg b c)
         ++ (inr <$> events (main cfg env fuel a))).
Proof.
  intros Hx Hnew Hs.
  assert (Main.startup cfg b se
          = (startup_events cfg b c,
             Ret (Main.mk_locals (Main.json_output cfg b).1
                    (Main.json_output cfg b).2 a))) as Hstart.
  { unfold Main.startup, startup_events.
    rewrite (createApi_known _ _ _ Hx), Hnew.
    repeat (apply all_start_cons in Hs as [?H Hs]).
    unfold Main.start, Main.step.
    repeat match goal with
           | Hr : Main.starts _ _ = None |- _ => rewrite Hr; clear Hr
           end.
    by destruct (web_server_enabled cfg), (has_analyseCurrencies cfg). }
  split; [exact Hstart|]. unfold Main.main. rewrite Hstart. simpl.
  by destruct (main cfg env fuel a) as [[o a'] l'].
Qed.

(** * Ignored failures in a row *)

Lemma slept_app l1 l2 : slept (l1 ++ l2) = slept l1 ++ slept l2.
Proof. unfold slept. apply omap_app. Qed.

Lemma cycle_first_call_ignored cfg ce a ex :
  raises ce L76_update_conversion_rates = Some ex →
  isinstance ex KeyboardInterrupt = false →
  isinstance ex BadStatusLine || isinstance ex URLError
    || isinstance ex ApiError = true →
  ∃ line, cycle cfg ce a
          = (Ret tt, a, [called L76_update_conversion_rates; print line]).
Proof.
  intros Hr Hki Hcls.
  assert (body ce a = (Raise ex, a, [called L76_update_conversion_rates])) as Hb.
  { rewrite body_run_calls. unfold body_sites, body_events. simpl zip.
    by rewrite run_calls_cons, Hr. }
  rewrite (cycle_body_raises _ _ _ _ _ _ Hb). unfold handlers. rewrite Hki.
  destruct (isinstance ex BadStatusLine); [by eexists|].
  destruct (isinstance ex URLError); [by eexists|].
  simpl in Hcls. rewrite Hcls. by eexists.
Qed.

(** X15. The clauses for [BadStatusLine], [URLError] and [ApiError] do
    not sleep: while the first call of every cycle fails that way (the
    exchange is unreachable, say), the loop goes from cycle to cycle
    without a single sleep, two events a cycle, the adapter untouched. *)
Theorem ignored_failures_never_sleep cfg env k a :
  (∀ n, (n < k)%nat →
        ∃ ex, raises (env n) L76_update_conversion_rates = Some ex
              ∧ isinstance ex KeyboardInterrupt = false
              ∧ isinstance ex BadStatusLine || isinstance ex URLError
                  || isinstance ex ApiError = true) →
  result (main cfg env k a) = Running
  ∧ final (main cfg env k a) = a
  ∧ slept (events (main cfg env k a)) = []
  ∧ length (events (main cfg env k a)) = (2 * k)%nat.
Proof.
  intros Hfail.
  assert (∀ m, (∀ n, (m ≤ n < m + k)%nat →
                 ∃ ex, raises (env n) L76_update_conversion_rates = Some ex
                       ∧ isinstance ex KeyboardInterrupt = false
                       ∧ isinstance ex BadStatusLine || isinstance ex URLError
                           || isinstance ex ApiError = true) →
          ∃ l, loop cfg env k m a = (Unfinished, a, l)
               ∧ slept l = [] ∧ length l = (2 * k)%nat) as Hloop.
  { clear Hfail. induction k as [|k IH]; intros m Hm; [by exists []|].
    destruct (Hm m ltac:(lia)) as (ex & Hr & Hki & Hcls).
    destruct (cycle_first_call_ignored cfg (env m) a ex Hr Hki Hcls) as [line Hc].
    destruct (IH (S m)) as (l & Hl & Hs & Hlen);
      [intros n Hn; apply Hm; lia|].
    exists ([called L76_update_conversion_rates; print line] ++ l).
    simpl loop. rewrite Hc, Hl. split; [done|].
    rewrite slept_app, Hs, length_app, Hlen. split; [done|]. simpl. lia. }
  destruct (Hloop 0%nat) as (l & Hl & Hs & Hlen);
    [intros n Hn; apply Hfail; lia|].
  unfold main. by rewrite Hl.
Qed.

(** * The further properties at concrete inputs *)

Ltac starts_here :=
  let s := fresh "s" in
  let Hs := fresh "Hs" in
  intros s Hs;
  repeat (apply elem_of_cons in Hs as [->|Hs]; [reflexivity|]);
  by apply elem_of_nil in Hs.

Lemma not_iterable_failure_ends_run_witness :
  main (sample_config false false false) (failing_run (new_Exception "boom")) 3
       (mk_api 1000 1000)
  = (Propagated (not_iterable (new_Exception "boom")), mk_api 1000 1000,
     body_events (quiet 60)
       ++ [called L76_update_conversion_rates; called L77_before_lending;
           called L78_transfer_balances; called L79_cancel_all;
           called L80_lend_all]
       ++ [log_error L97_log_error "boom"; called L98_persistStatus]).
Proof.
  refine (not_iterable_failure_ends_run (sample_config false false false)
            (failing_run (new_Exception "boom")) 1 3 (mk_api 1000 1000)
            (mk_api 1000 1000) (body_events (quiet 60))
            [called L76_update_conversion_rates; called L77_before_lending;
             called L78_transfer_balances; called L79_cancel_all;
             called L80_lend_all]
            (new_Exception "boom") eq_refl eq_refl eq_refl eq_refl _ _).
  - returns_here.
  - repeat constructor.
Defined.

Lemma fatal_needle_reraised_witness :
  generic_handler (sample_config false false false) (quiet 60)
    (text_exception "Nonce must be greater than 1510") (mk_api 1000 1000)
  = (Raise (text_exception "Nonce must be greater than 1510"), mk_api 1000 1000,
     [log_error L97_log_error "Nonce must be greater than 1510";
      called L98_persistStatus; print "!!! Troubleshooting !!!";
      print "Are you reusing the API key in multiple applications? Use a unique key for every application."]).
Proof.
  refine (proj1 (proj2 (fatal_needle_reraised (sample_config false false false)
                          (quiet 60)
                          (text_exception "Nonce must be greater than 1510")
                          (λ needle, str_in needle "Nonce must be greater than 1510")
                          (mk_api 1000 1000) eq_refl _)) eq_refl eq_refl).
  apply all_return_quiet.
Defined.

Lemma timed_out_precedes_error_429_witness :
  generic_handler (sample_config true false false) (quiet 60)
    (text_exception "Error 429: request timed out") (mk_api 1000 1000)
  = (Ret tt, mk_api 1000 1000,
     [log_error L97_log_error "Error 429: request timed out";
      called L98_persistStatus; print "Timed out, will retry in <num>sec";
      called L132_flush; time_sleep L133_sleep 60]).
Proof.
  refine (timed_out_precedes_error_429 (sample_config true false false) (quiet 60)
            (text_exception "Error 429: request timed out")
            (λ needle, str_in needle "Error 429: request timed out")
            (mk_api 1000 1000) eq_refl eq_refl eq_refl eq_refl _).
  apply all_return_quiet.
Defined.

Lemma error_429_additional_sleep_witness :
  slept (events (generic_handler (sample_config false false false) (quiet 200)
                   (text_exception "Error 429") (mk_api 1000 1000)))
  = [py_max (130 - 200) 0; 200%Q]
  ∧ (py_max (130 - 200) 0 == 0)%Q.
Proof.
  pose proof (error_429_additional_sleep (sample_config false false false)
                (quiet 200) (text_exception "Error 429")
                (λ needle, str_in needle "Error 429") (mk_api 1000 1000)
                eq_refl eq_refl (all_return_quiet 200 _))
    as (Hs & _ & Hexact).
  split; [exact Hs|].
  refine (proj2 (Hexact _) _); [apply Qeq_refl | by compute].
Defined.

Lemma exit_hook_only_on_interrupt_witness :
  ∃ n e, result (loop (sample_config false false false) interrupted_run 5 0
                      (mk_api 1000 1000)) = Raised n e
         ∧ isinstance e KeyboardInterrupt = true.
Proof.
  destruct (proj2 (proj2 (exit_hook_only_on_interrupt
                            (sample_config false false false) interrupted_run 5
                            (mk_api 1000 1000))) eq_refl)
    as (n & e & Hl & Hki & _).
  by exists n, e.
Defined.

Lemma stop_web_server_failure_skips_hook_witness :
  main (web_config false)
       (λ _, raising [(L86_sleep, new_KeyboardInterrupt);
                      (L138_stop_web_server, url_error)] 60)
       2 (mk_api 1000 1000)
  = (Propagated url_error, mk_api 1000 1000,
     body_events (quiet 60) ++ [called L138_stop_web_server]).
Proof.
  exact (proj1 (stop_web_server_failure_skips_hook (web_config false)
                  (λ _, raising [(L86_sleep, new_KeyboardInterrupt);
                                 (L138_stop_web_server, url_error)] 60)
                  2 (mk_api 1000 1000) 0 new_KeyboardInterrupt url_error
                  (mk_api 1000 1000) (body_events (quiet 60))
                  eq_refl eq_refl eq_refl eq_refl)).
Defined.

Lemma quiet_run_keeps_going_witness :
  main (sample_config false false false) (λ _, quiet 60) 2 (mk_api 1000 1000)
  = (Running, mk_api 1000 1000, body_events (quiet 60) ++ body_events (quiet 60)).
Proof.
  refine (quiet_run_keeps_going (sample_config false false false)
            (λ _, quiet 60) 2 (mk_api 1000 1000) _).
  intros n _. apply all_return_quiet.
Defined.

Lemma handler_failure_ends_run_witness :
  result (main (sample_config false false true)
               (λ _, raising [(L76_update_conversion_rates, text_exception "boom");
                              (L131_notify, url_error)] 60)
               2 (mk_api 1000 1000))
  = Propagated url_error.
Proof.
  refine (proj1 (handler_failure_ends_run (sample_config false false true)
                   (λ _, raising [(L76_update_conversion_rates,
                                   text_exception "boom");
                                  (L131_notify, url_error)] 60)
                   0 2 (mk_api 1000 1000) (mk_api 1000 1000) []
                   [called L76_update_conversion_rates]
                   (text_exception "boom") L131_notify url_error
                   eq_refl eq_refl eq_refl eq_refl eq_refl eq_refl _)).
  repeat constructor.
Defined.

Lemma unmatched_exception_ends_run_witness :
  main (sample_config false false false) (failing_run system_exit) 3
       (mk_api 1000 1000)
  = (Propagated system_exit, mk_api 1000 1000,
     body_events (quiet 60)
       ++ [called L76_update_conversion_rates; called L77_before_lending;
           called L78_transfer_balances; called L79_cancel_all;
           called L80_lend_all]).
Proof.
  refine (unmatched_exception_ends_run (sample_config false false false)
            (failing_run system_exit) 1 3 (mk_api 1000 1000) (mk_api 1000 1000)
            (body_events (quiet 60))
            [called L76_update_conversion_rates; called L77_before_lending;
             called L78_transfer_balances; called L79_cancel_all;
             called L80_lend_all]
            system_exit eq_refl eq_refl eq_refl eq_refl eq_refl eq_refl eq_refl _).
  repeat constructor.
Defined.

Lemma unsupported_exchange_stops_start_witness :
  Main.main (web_config false) (sample_settings "KRAKEN") (start_raising [])
            (λ _, quiet 60) 2
  = (Propagated (new_Exception "Invalid exchange: KRAKEN"), None,
     [inl (Main.started Main.L29_Config_init);
      inl (Main.started Main.L47_initialize_web_server);
      inl (Main.started Main.L50_Decimal);
      inl (Main.new_Logger "www/botlog.json")]).
Proof.
  refine (unsupported_exchange_stops_start (web_config false)
            (sample_settings "KRAKEN") (start_raising []) (λ _, quiet 60) 2
            eq_refl _).
  starts_here.
Defined.


Lemma web_server_forces_json_output_witness :
  Main.json_output (web_config false) (sample_settings "POLONIEX")
  = (true, "www/botlog.json").
Proof.
  pose proof (web_server_forces_json_output (web_config false)
                (sample_settings "POLONIEX") (start_raising []))
    as (Hon & _ & Hfile & _).
  specialize (Hon eq_refl).
  destruct (Main.json_output (web_config false) (sample_settings "POLONIEX"))
    as [enabled file].
  simpl in Hon, Hfile. by rewrite Hon, Hfile.
Defined.

Lemma start_hands_adapter_to_loop_witness :
  Main.main (sample_config false false false) (sample_settings "BITFINEX")
            (start_raising []) (λ _, quiet 60) 1
  = (Running, Some (mk_api 1000 1000),
     (inl <$> startup_events (sample_config false false false)
                (sample_settings "BITFINEX") ExchangeApiFactory.Bitfinex)
       ++ (inr <$> body_events (quiet 60))).
Proof.
  refine (proj2 (start_hands_adapter_to_loop (sample_config false false false)
                   (sample_settings "BITFINEX") (start_raising [])
                   (λ _, quiet 60) 1 ExchangeApiFactory.Bitfinex
                   (mk_api 1000 1000) eq_refl eq_refl _)).
  starts_here.
Defined.

Lemma ignored_failures_never_sleep_witness :
  slept (events (main (sample_config false false false)
                      (λ _, raising [(L76_update_conversion_rates, url_error)] 60)
                      3 (mk_api 1000 1000)))
  = [].
Proof.
  refine (proj1 (proj2 (proj2 (ignored_failures_never_sleep
                                 (sample_config false false false)
                                 (λ _, raising [(L76_update_conversion_rates,
                                                 url_error)] 60)
                                 3 (mk_api 1000 1000) _)))).
  intros n _. exists url_error. by repeat split.
Defined.
